(** * DigiID (digiid-ts): challenge URI generation and callback verification

    A shallow embedding of [src/digiid.ts] (with the types of [src/types.ts])
    and the properties of the two exported operations,
    [generateDigiIDUri] and [verifyDigiIDCallback].

    Layout:
    - [Js]: the JavaScript values the code manipulates (thrown errors,
      completions of a call, truthiness of strings);
    - [Hex]: [Buffer.prototype.toString('hex')];
    - [Types]: the interfaces of [types.ts] and the part of the platform's
      [URL] objects that the code reads;
    - [DigiID]: the three functions of [digiid.ts], parameterised by the
      platform's [URL] constructor, the entropy source behind
      [crypto.randomBytes] and the signature helper;
    - [Whatwg]: a model of the platform's [URL] constructor, which follows
      the URL parser of the WHATWG URL Standard on ASCII [http], [https],
      [ws], [wss] and [ftp] URLs with a domain for a host;
    - [Pipeline] and [Scenario]: how far a callback gets in the
      verification, and the values of the test suite;
    - the theorems, by operation and by step. *)

From Stdlib Require Import String Ascii List Bool Arith Lia.
From Stdlib Require Import NArith DecimalString.
From Stdlib.Strings Require Import Byte.
Import ListNotations.
Open Scope list_scope.
Open Scope string_scope.

(* ------------------------------------------------------------------ *)
(** * JavaScript values *)

Module Js.

(** What a [throw] carries.  [digiid.ts] reads caught values through
    [(e as Error).message] and tests them with [instanceof DigiIDError], so
    a thrown value is an [Error] object: either an instance of the
    repository's [DigiIDError] or some other [Error] with its [name]
    ([TypeError], [Error], ...). *)
Inductive thrown : Type :=
| DigiIDError (message : string)
| JsError (name message : string).

(** [e.message] *)
Definition message (e : thrown) : string :=
  match e with
  | DigiIDError m => m
  | JsError _ m => m
  end.

(** [e.name]; the constructor of [DigiIDError] sets it. *)
Definition name (e : thrown) : string :=
  match e with
  | DigiIDError _ => "DigiIDError"
  | JsError n _ => n
  end.

(** [e instanceof DigiIDError] *)
Definition instanceof_DigiIDError (e : thrown) : bool :=
  match e with
  | DigiIDError _ => true
  | JsError _ _ => false
  end.

(** Truthiness of a string: only the empty string is falsy. *)
Definition truthy (s : string) : bool :=
  match s with
  | EmptyString => false
  | String _ _ => true
  end.

(** Truthiness of an optional string field ([undefined] is falsy). *)
Definition truthy_opt (o : option string) : bool :=
  match o with
  | None => false
  | Some s => truthy s
  end.

(** Truthiness of an optional boolean field. *)
Definition truthy_flag (o : option bool) : bool :=
  match o with
  | None => false
  | Some b => b
  end.

(** [Error.prototype.toString]: the name, the message, or both joined by
    a colon. *)
Definition toString (e : thrown) : string :=
  if negb (truthy (name e)) then message e
  else if negb (truthy (message e)) then name e
  else name e ++ ": " ++ message e.

(** How a call completes: it returns a value or throws.  For an [async]
    function, [Return] is a resolved promise and [Throw] a rejected one. *)
Inductive completion (A : Type) : Type :=
| Return (a : A)
| Throw (e : thrown).
Arguments Return {A} a.
Arguments Throw {A} e.

Definition bind {A B} (c : completion A) (k : A -> completion B)
  : completion B :=
  match c with
  | Return a => k a
  | Throw e => Throw e
  end.

(** [try { c } catch (e) { h e }] *)
Definition try_catch {A} (c : completion A) (h : thrown -> completion A)
  : completion A :=
  match c with
  | Return a => Return a
  | Throw e => h e
  end.

End Js.
Import Js.

Declare Scope js_scope.
Delimit Scope js_scope with js.
Notation "x <- c ;; k" := (bind c (fun x => k))
  (at level 61, c at next level, right associativity) : js_scope.
Notation "c ;;; k" := (bind c (fun _ => k))
  (at level 61, right associativity) : js_scope.

(* ------------------------------------------------------------------ *)
(** * Hexadecimal encoding of a buffer *)

Module Hex.

(** One lowercase hexadecimal digit. *)
Definition digit (n : nat) : ascii :=
  if (n <? 10)%nat then ascii_of_nat (48 + n) else ascii_of_nat (87 + n).

(** Two digits for a byte, high nibble first. *)
Definition of_byte (b : byte) : string :=
  let n := Byte.to_nat b in
  String (digit (n / 16)) (String (digit (n mod 16)) EmptyString).

(** [buf.toString('hex')] *)
Fixpoint encode (buf : list byte) : string :=
  match buf with
  | [] => EmptyString
  | b :: rest => of_byte b ++ encode rest
  end.

(** The characters a lowercase hexadecimal string is made of. *)
Definition is_lower_hex (c : ascii) : bool :=
  let n := nat_of_ascii c in
  ((48 <=? n)%nat && (n <=? 57)%nat) || ((97 <=? n)%nat && (n <=? 102)%nat).

Fixpoint all_lower_hex (s : string) : bool :=
  match s with
  | EmptyString => true
  | String c rest => is_lower_hex c && all_lower_hex rest
  end.

End Hex.

(* ------------------------------------------------------------------ *)
(** * The interfaces of [types.ts] and the platform's [URL] *)

Module Types.

(** The fields of a platform [URL] object that [digiid.ts] reads.
    [searchParams] is the list of name-value pairs of the query, in
    order, already decoded. *)
Record URL : Type := mkURL {
  protocol : string;
  host : string;
  pathname : string;
  searchParams : list (string * string)
}.

(** [URLSearchParams.prototype.get]: the value of the first pair with the
    given name, [null] when there is none. *)
Fixpoint searchParams_get (name : string) (ps : list (string * string))
  : option string :=
  match ps with
  | [] => None
  | (k, v) :: rest => if String.eqb k name then Some v
                      else searchParams_get name rest
  end.

Record DigiIDUriOptions : Type := mkUriOptions {
  callbackUrl : string;
  nonce : option string;
  unsecure : option bool
}.

Record DigiIDCallbackData : Type := mkCallbackData {
  address : string;
  uri : string;
  signature : string
}.

(** [expectedCallbackUrl: string | URL] *)
Record DigiIDVerifyOptions : Type := mkVerifyOptions {
  expectedCallbackUrl : string + URL;
  expectedNonce : option string
}.

(** [isValid] has the literal type [true]. *)
Record DigiIDVerificationResult : Type := mkResult {
  isValid : bool;
  result_address : string;
  result_nonce : string
}.

End Types.
Import Types.

(* ------------------------------------------------------------------ *)
(** * The functions of [digiid.ts] *)

Module DigiID.

(** The double quote character that the diagnostics put around values. *)
Definition dq : string := String (ascii_of_nat 34) EmptyString.

(** ** The messages of the errors the code throws *)

Definition msg_callback_required : string := "Callback URL is required.".
Definition msg_invalid_callback (m : string) : string :=
  "Invalid callback URL: " ++ m.
Definition msg_unsecure_not_http : string :=
  "Unsecure flag is true, but callback URL does not use http protocol.".
Definition msg_must_use_https : string :=
  "Callback URL must use https protocol unless unsecure flag is set to true.".
Definition msg_missing_data : string :=
  "Missing required callback data: address, uri, or signature.".
Definition msg_invalid_uri (m : string) : string :=
  "Invalid URI received in callback: " ++ m.
Definition msg_missing_params : string :=
  "URI missing nonce (x) or unsecure (u) parameter.".
Definition msg_invalid_expected (m : string) : string :=
  "Invalid expectedCallbackUrl provided: " ++ m.
Definition msg_url_mismatch (received expected : string) : string :=
  "Callback URL mismatch: URI contained " ++ dq ++ received ++ dq
    ++ ", expected " ++ dq ++ expected ++ dq.
Definition msg_u1_not_http : string :=
  "URI indicates unsecure (u=1), but expectedCallbackUrl is not http.".
Definition msg_u0_not_https : string :=
  "URI indicates secure (u=0), but expectedCallbackUrl is not https.".
Definition msg_nonce_mismatch (received expected : string) : string :=
  "Nonce mismatch: URI contained " ++ dq ++ received ++ dq
    ++ ", expected " ++ dq ++ expected ++ dq ++ ". Possible replay attack.".
Definition msg_invalid_signature : string := "Invalid signature.".
Definition msg_unexpected (m : string) : string :=
  "Unexpected error during signature verification: " ++ m.
Definition msg_verification_failed (m : string) : string :=
  "Signature verification failed: " ++ m.

(** [uri.replace(/^digiid:/, 'http:')]: the pattern is anchored, so only a
    leading [digiid:] is replaced, and only in that exact case. *)
Fixpoint strip_prefix (p s : string) : option string :=
  match p with
  | EmptyString => Some s
  | String a p' =>
      match s with
      | EmptyString => None
      | String b s' => if Ascii.eqb a b then strip_prefix p' s' else None
      end
  end.

Definition replace_digiid (uri : string) : string :=
  match strip_prefix "digiid:" uri with
  | Some rest => "http:" ++ rest
  | None => uri
  end.

Section Core.

(** The platform's [new URL(input)]: a [URL] object, or a thrown
    [TypeError]. *)
Variable URL_new : string -> completion URL.

(** The bytes the process-wide secure random source hands out, in the
    order it hands them out. *)
Variable entropy : nat -> byte.

(** [crypto.randomBytes(size)], reading the source from position [pos]
    on; the second component is the position after the call. *)
Definition randomBytes (size : nat) (pos : nat) : list byte * nat :=
  (map entropy (seq pos size), pos + size).

(** [generateNonce(length = 16)] *)
Definition generateNonce (length : option nat) (pos : nat)
  : string * nat :=
  let length := match length with Some n => n | None => 16 end in
  let (buf, pos') := randomBytes length pos in
  (Hex.encode buf, pos').

(** [generateDigiIDUri(options)].  The second component of the argument
    and of the result is the position in the random source before and
    after the call. *)
Definition generateDigiIDUri (options : DigiIDUriOptions) (pos : nat)
  : completion string * nat :=
  if negb (truthy (callbackUrl options)) then
    (Throw (DigiIDError msg_callback_required), pos)
  else
    match URL_new (callbackUrl options) with
    | Throw e =>
        (Throw (DigiIDError (msg_invalid_callback (message e))), pos)
    | Return parsedUrl =>
        let domainAndPath := host parsedUrl ++ pathname parsedUrl in
        let (nonce, pos') :=
          if truthy_opt (nonce options)
          then (match nonce options with
                | Some n => n
                | None => EmptyString
                end, pos)
          else generateNonce None pos in
        let unsecureFlag :=
          if truthy_flag (unsecure options) then "1" else "0" in
        if truthy_flag (unsecure options)
           && negb (protocol parsedUrl =? "http:")
        then (Throw (DigiIDError msg_unsecure_not_http), pos')
        else if negb (truthy_flag (unsecure options))
                && negb (protocol parsedUrl =? "https:")
        then (Throw (DigiIDError msg_must_use_https), pos')
        else (Return ("digiid://" ++ domainAndPath ++ "?x=" ++ nonce
                        ++ "&u=" ++ unsecureFlag), pos')
    end.

Section Verify.

(** What the call [_internalVerifySignature(uri, address, signature)]
    of [verifyDigiIDCallback] completes with.  The tests replace the
    helper by a stub; the helper of the repository is
    [_internalVerifySignature] below. *)
Variable verifySignature : string -> string -> string -> completion bool.

(** "Validate scheme consistency" *)
Definition checkScheme (receivedUnsecure expectedScheme : string)
  : completion unit :=
  if (receivedUnsecure =? "1") && negb (expectedScheme =? "http:")
  then Throw (DigiIDError msg_u1_not_http)
  else if (receivedUnsecure =? "0") && negb (expectedScheme =? "https:")
  then Throw (DigiIDError msg_u0_not_https)
  else Return tt.

(** "3. Validate Nonce (optional)" *)
Definition checkNonce (expectedNonce : option string)
           (receivedNonce : string) : completion unit :=
  match expectedNonce with
  | Some expected =>
      if truthy expected && negb (receivedNonce =? expected)
      then Throw (DigiIDError
                    (msg_nonce_mismatch receivedNonce expected))
      else Return tt
  | None => Return tt
  end.

(** "4. Verify Signature using internal helper": the [throw] of the
    [try] block is caught by its own [catch], which throws it again. *)
Definition checkSignature (uri address signature : string)
  : completion unit :=
  try_catch
    (isValidSignature <- verifySignature uri address signature ;;
     if negb isValidSignature
     then Throw (DigiIDError msg_invalid_signature)
     else Return tt)%js
    (fun error =>
       if instanceof_DigiIDError error then Throw error
       else Throw (DigiIDError (msg_unexpected (message error)))).

(** [verifyDigiIDCallback(callbackData, verifyOptions)] *)
Definition verifyDigiIDCallback (callbackData : DigiIDCallbackData)
           (verifyOptions : DigiIDVerifyOptions)
  : completion DigiIDVerificationResult :=
  let address := address callbackData in
  let uri := uri callbackData in
  let signature := signature callbackData in
  let expectedCallbackUrl := expectedCallbackUrl verifyOptions in
  let expectedNonce := expectedNonce verifyOptions in
  if negb (truthy address) || negb (truthy uri)
     || negb (truthy signature)
  then Throw (DigiIDError msg_missing_data)
  else
    (parsedReceivedUri <-
       try_catch (URL_new (replace_digiid uri))
         (fun e => Throw (DigiIDError (msg_invalid_uri (message e)))) ;;
     let receivedNonce :=
       searchParams_get "x" (searchParams parsedReceivedUri) in
     let receivedUnsecure :=
       searchParams_get "u" (searchParams parsedReceivedUri) in
     let receivedDomainAndPath :=
       host parsedReceivedUri ++ pathname parsedReceivedUri in
     match receivedNonce, receivedUnsecure with
     | Some receivedNonce, Some receivedUnsecure =>
         parsedExpectedUrl <-
           try_catch
             (match expectedCallbackUrl with
              | inl s => URL_new s
              | inr u => Return u
              end)
             (fun e =>
                Throw (DigiIDError
                         (msg_invalid_expected (message e)))) ;;
         let expectedDomainAndPath :=
           host parsedExpectedUrl ++ pathname parsedExpectedUrl in
         if negb (receivedDomainAndPath =? expectedDomainAndPath)
         then Throw (DigiIDError
                       (msg_url_mismatch receivedDomainAndPath
                          expectedDomainAndPath))
         else
           let expectedScheme := protocol parsedExpectedUrl in
           checkScheme receivedUnsecure expectedScheme ;;;
           checkNonce expectedNonce receivedNonce ;;;
           checkSignature uri address signature ;;;
           Return {| isValid := true;
                     result_address := address;
                     result_nonce := receivedNonce |}
     | _, _ => Throw (DigiIDError msg_missing_params)
     end)%js.

End Verify.

End Core.

Section Helper.

(** The outcome of [require('digibyte-message')]: the module cannot be
    loaded, or it provides [new Message(uri).verify(address, signature)],
    whose result is taken here by its truthiness. *)
Variable require_digibyte_message
  : completion (string -> string -> string -> completion bool).

(** [_internalVerifySignature(uri, address, signature)]: the [require]
    is outside the [try] block. *)
Definition _internalVerifySignature (uri address signature : string)
  : completion bool :=
  (Message_verify <- require_digibyte_message ;;
   try_catch (Message_verify uri address signature)
     (fun e =>
        Throw (DigiIDError
                 (msg_verification_failed
                    (if truthy (message e) then message e
                     else toString e)))))%js.

End Helper.

End DigiID.
Import DigiID.

(* ------------------------------------------------------------------ *)
(** * A model of the platform's [URL] constructor *)

(** [digiid.ts] relies on the platform's [URL] class, which implements the
    URL parser of the WHATWG URL Standard.  The model below follows the
    Standard's parser, called without a base URL, on the inputs described by
    [Unmodelled]: it answers [Parsed] or [Failure] only where it follows the
    Standard, and [Unmodelled] elsewhere.  Strings are sequences of ASCII
    characters. *)

Module Whatwg.

(** The answer of the model.  [Unmodelled] inputs are: input with a
    character outside ASCII; a scheme other than [http], [https], [ws],
    [wss] and [ftp]; a host with a bracket (IPv6), a percent sign, a
    punycode label or a last label that is a number (IPv4); a path with a
    circumflex; a query whose percent-decoding leaves ASCII. *)
Inductive outcome : Type :=
| Parsed (u : URL)
| Failure
| Unmodelled.

Definition chars := list ascii.

Definition code (c : ascii) : nat := nat_of_ascii c.

Definition between (lo hi : nat) (c : ascii) : bool :=
  (lo <=? code c)%nat && (code c <=? hi)%nat.

Definition is_digit : ascii -> bool := between 48 57.
Definition is_upper : ascii -> bool := between 65 90.
Definition is_lower : ascii -> bool := between 97 122.
Definition is_alpha (c : ascii) : bool := is_upper c || is_lower c.
Definition is_alnum (c : ascii) : bool := is_alpha c || is_digit c.
Definition is_hex_digit (c : ascii) : bool :=
  is_digit c || between 65 70 c || between 97 102 c.
Definition is_c0_or_space : ascii -> bool := between 0 32.
Definition is_tab_or_newline (c : ascii) : bool :=
  (code c =? 9)%nat || (code c =? 10)%nat || (code c =? 13)%nat.
Definition is_ascii (c : ascii) : bool := (code c <? 128)%nat.

Definition to_lower (c : ascii) : ascii :=
  if is_upper c then ascii_of_nat (code c + 32) else c.

(** Whether [c] is one of the characters of [set]. *)
Fixpoint mem (c : ascii) (set : string) : bool :=
  match set with
  | EmptyString => false
  | String d rest => Ascii.eqb c d || mem c rest
  end.

Fixpoint drop_while (p : ascii -> bool) (l : chars) : chars :=
  match l with
  | [] => []
  | c :: r => if p c then drop_while p r else l
  end.

(** The longest prefix whose characters all satisfy [p], and the rest. *)
Fixpoint span (p : ascii -> bool) (l : chars) : chars * chars :=
  match l with
  | [] => ([], [])
  | c :: r => if p c then let (a, b) := span p r in (c :: a, b)
              else ([], l)
  end.

(** The pieces of [l] between the occurrences of [sep]. *)
Fixpoint split_on (sep : ascii) (l : chars) : list chars :=
  match l with
  | [] => [[]]
  | c :: r =>
      match split_on sep r with
      | [] => [[]]
      | piece :: pieces =>
          if Ascii.eqb c sep then [] :: piece :: pieces
          else (c :: piece) :: pieces
      end
  end.

Fixpoint starts_with (p l : chars) : bool :=
  match p, l with
  | [], _ => true
  | _ :: _, [] => false
  | a :: p', b :: l' => Ascii.eqb a b && starts_with p' l'
  end.

Definition chars_eqb (a b : chars) : bool :=
  String.eqb (string_of_list_ascii a) (string_of_list_ascii b).

(** ** Percent-encoding *)

Definition upper_hex_digit (n : nat) : ascii :=
  if (n <? 10)%nat then ascii_of_nat (48 + n) else ascii_of_nat (55 + n).

Definition percent_encode (c : ascii) : chars :=
  ["%"%char; upper_hex_digit (code c / 16);
   upper_hex_digit (code c mod 16)].

(** The C0 control percent-encode set, within ASCII. *)
Definition in_c0_control_set (c : ascii) : bool :=
  between 0 31 c || (126 <? code c)%nat.

Definition in_query_set (c : ascii) : bool :=
  in_c0_control_set c || (code c =? 32)%nat || (code c =? 34)%nat
  || mem c "#<>".

Definition in_special_query_set (c : ascii) : bool :=
  in_query_set c || (code c =? 39)%nat.

Definition in_path_set (c : ascii) : bool :=
  in_query_set c || mem c "?^`{}".

Definition encode_with (set : ascii -> bool) (c : ascii) : chars :=
  if set c then percent_encode c else [c].

Definition hex_value (c : ascii) : nat :=
  if is_digit c then code c - 48
  else if between 65 70 c then code c - 55
  else code c - 87.

(** Percent-decoding: a percent sign followed by two hexadecimal digits
    stands for a byte; any other percent sign stands for itself. *)
Fixpoint percent_decode (l : chars) : chars :=
  match l with
  | [] => []
  | c :: r =>
      match r with
      | h1 :: h2 :: r2 =>
          if Ascii.eqb c "%" && is_hex_digit h1 && is_hex_digit h2
          then ascii_of_nat (16 * hex_value h1 + hex_value h2)
                 :: percent_decode r2
          else c :: percent_decode r
      | _ => c :: percent_decode r
      end
  end.

(** ** Scheme *)

(** The scheme start and scheme states: an ASCII letter, then letters,
    digits, plus, minus and dot up to a colon; the scheme is lowercased.
    Without a base URL, anything else is a failure. *)
Fixpoint scheme_state (buffer : chars) (l : chars)
  : option (chars * chars) :=
  match l with
  | [] => None
  | c :: r =>
      if is_alnum c || mem c "+-." then
        scheme_state (buffer ++ [to_lower c])%list r
      else if Ascii.eqb c ":" then Some (buffer, r)
      else None
  end.

Definition scheme_start_state (l : chars) : option (chars * chars) :=
  match l with
  | c :: r => if is_alpha c then scheme_state [to_lower c] r else None
  | [] => None
  end.

(** The default port of the special schemes the model covers. *)
Definition default_port (scheme : string) : option N :=
  if scheme =? "http" then Some 80%N
  else if scheme =? "https" then Some 443%N
  else if scheme =? "ws" then Some 80%N
  else if scheme =? "wss" then Some 443%N
  else if scheme =? "ftp" then Some 21%N
  else None.

(** ** Host *)

Definition is_forbidden_domain_code_point (c : ascii) : bool :=
  between 0 32 c || (code c =? 127)%nat || mem c "#/:<>?@[\]^|%".

(** The "ends in a number" check of the host parser. *)
Definition ends_in_number (host : chars) : bool :=
  let parts := rev (split_on "." host) in
  let parts := match parts with
               | [] :: ((_ :: _) as others) => others
               | _ => parts
               end in
  match parts with
  | ((c :: _) as last) :: _ =>
      forallb is_digit last
      || ((starts_with ["0"; "x"]%char last
           || starts_with ["0"; "X"]%char last)
          && forallb is_hex_digit (skipn 2 last))
  | _ => false
  end.

Definition has_punycode_label (host : chars) : bool :=
  existsb (fun label => starts_with ["x"; "n"; "-"; "-"]%char
                          (map to_lower label))
          (split_on "." host).

Inductive host_outcome : Type :=
| Host (h : chars)
| HostFailure
| HostUnmodelled.

(** The host parser for a special scheme, on an ASCII domain: the domain
    is lowercased, must not be empty nor hold a forbidden code point. *)
Definition host_parser (input : chars) : host_outcome :=
  if existsb (fun c => mem c "[]%") input || has_punycode_label input
  then HostUnmodelled
  else
    let asciiDomain := map to_lower input in
    match asciiDomain with
    | [] => HostFailure
    | _ :: _ =>
        if existsb is_forbidden_domain_code_point asciiDomain
        then HostFailure
        else if ends_in_number asciiDomain then HostUnmodelled
        else Host asciiDomain
    end.

(** The port state: decimal digits only, at most 65535; the default port
    of the scheme is dropped. *)
Definition digits_value (l : chars) : N :=
  fold_left (fun acc c => (acc * 10 + N.of_nat (code c - 48))%N) l 0%N.

Definition port_state (scheme : string) (buffer : chars)
  : option (option N) :=
  if negb (forallb is_digit buffer) then None
  else
    match buffer with
    | [] => Some None
    | _ :: _ =>
        let port := digits_value buffer in
        if (65535 <? port)%N then None
        else
          match default_port scheme with
          | Some d => if (d =? port)%N then Some None else Some (Some port)
          | None => Some (Some port)
          end
    end.

Definition serialize_port (port : N) : chars :=
  list_ascii_of_string (NilZero.string_of_uint (N.to_uint port)).

(** ** Path *)

Definition is_single_dot (buffer : chars) : bool :=
  let b := string_of_list_ascii (map to_lower buffer) in
  (b =? ".") || (b =? "%2e").

Definition is_double_dot (buffer : chars) : bool :=
  let b := string_of_list_ascii (map to_lower buffer) in
  (b =? "..") || (b =? ".%2e") || (b =? "%2e.") || (b =? "%2e%2e").

(** What the path state does with the buffer when a segment ends;
    [at_slash] tells whether the segment ends at a slash or backslash. *)
Definition end_segment (path : list chars) (buffer : chars)
           (at_slash : bool) : list chars :=
  if is_double_dot buffer then
    let shortened := removelast path in
    if at_slash then shortened else (shortened ++ [[]])%list
  else if is_single_dot buffer then
    if at_slash then path else (path ++ [[]])%list
  else (path ++ [buffer])%list.

(** The path state for a special scheme: the segments, and what is left
    from the question mark or number sign on. *)
Fixpoint path_state (path : list chars) (buffer : chars) (l : chars)
  : list chars * chars :=
  match l with
  | [] => (end_segment path buffer false, [])
  | c :: r =>
      if mem c "/\" then path_state (end_segment path buffer true) [] r
      else if mem c "?#" then (end_segment path buffer false, l)
      else path_state path (buffer ++ encode_with in_path_set c)%list r
  end.

(** The path start state for a special scheme skips one slash or
    backslash. *)
Definition path_start_state (l : chars) : list chars * chars :=
  match l with
  | c :: r => if mem c "/\" then path_state [] [] r
              else path_state [] [] l
  | [] => path_state [] [] []
  end.

Definition serialize_path (path : list chars) : chars :=
  concat (map (fun segment => "/"%char :: segment) path).

(** ** Query *)

(** The [application/x-www-form-urlencoded] parser that fills
    [searchParams]: pieces between ampersands, empty ones skipped, each cut
    at its first equals sign, plus signs read as spaces, then
    percent-decoded.  [None] when decoding leaves ASCII. *)
Definition decode_component (l : chars) : option string :=
  let bytes :=
    percent_decode
      (map (fun c => if Ascii.eqb c "+" then " "%char else c) l) in
  if forallb is_ascii bytes then Some (string_of_list_ascii bytes)
  else None.

Fixpoint urlencoded_pairs (sequences : list chars)
  : option (list (string * string)) :=
  match sequences with
  | [] => Some []
  | [] :: rest => urlencoded_pairs rest
  | ((_ :: _) as bytes) :: rest =>
      let (name, value) :=
        match span (fun c => negb (Ascii.eqb c "=")) bytes with
        | (name, _ :: value) => (name, value)
        | (name, []) => (name, [])
        end in
      match decode_component name, decode_component value,
            urlencoded_pairs rest with
      | Some n, Some v, Some ps => Some ((n, v) :: ps)
      | _, _, _ => None
      end
  end.

Definition urlencoded_parser (query : chars)
  : option (list (string * string)) :=
  urlencoded_pairs (split_on "&" query).

(** The query state for a special scheme: from the question mark up to a
    number sign, percent-encoded. *)
Definition query_state (l : chars) : chars :=
  match l with
  | c :: r =>
      if Ascii.eqb c "?" then
        concat (map (encode_with in_special_query_set)
                    (fst (span (fun c => negb (Ascii.eqb c "#")) r)))
      else []
  | [] => []
  end.

(** ** The parser *)

(** The authority state keeps what follows the last at sign as the host
    and port. *)
Definition after_last_at (authority : chars) : chars :=
  last (split_on "@" authority) [].

Definition basic_URL_parser (input : string) : outcome :=
  let l := list_ascii_of_string input in
  if negb (forallb is_ascii l) then Unmodelled
  else
    let l := rev (drop_while is_c0_or_space
                    (rev (drop_while is_c0_or_space l))) in
    let l := filter (fun c => negb (is_tab_or_newline c)) l in
    match scheme_start_state l with
    | None => Failure
    | Some (scheme, rest) =>
        let scheme := string_of_list_ascii scheme in
        match default_port scheme with
        | None => Unmodelled
        | Some _ =>
            let rest := drop_while (fun c => mem c "/\") rest in
            let (authority, rest) :=
              span (fun c => negb (mem c "/\?#")) rest in
            let (buffer, port_part) :=
              span (fun c => negb (Ascii.eqb c ":"))
                   (after_last_at authority) in
            match host_parser buffer with
            | HostUnmodelled => Unmodelled
            | HostFailure => Failure
            | Host domain =>
                match port_state scheme (tl port_part) with
                | None => Failure
                | Some port =>
                    let (raw_path, _) :=
                      span (fun c => negb (mem c "?#")) rest in
                    if existsb (fun c => Ascii.eqb c "^") raw_path
                    then Unmodelled
                    else
                      let (path, rest) := path_start_state rest in
                      match urlencoded_parser (query_state rest) with
                      | None => Unmodelled
                      | Some params =>
                          Parsed
                            {| protocol := scheme ++ ":";
                               host :=
                                 string_of_list_ascii
                                   (domain ++
                                    match port with
                                    | Some p => ":"%char :: serialize_port p
                                    | None => []
                                    end)%list;
                               pathname :=
                                 string_of_list_ascii
                                   (serialize_path path);
                               searchParams := params |}
                      end
                end
            end
        end
    end.

(** [new URL(input)] at the inputs the model covers: the [TypeError] of the
    platform has the message [Invalid URL].  This function stands for the
    platform's constructor in evaluations at concrete inputs, all of which
    the model covers; at an [Unmodelled] input its answer (a throw) says
    nothing about the platform, which parses many of them.  No statement
    below ranges over inputs through it: statements about every input are
    made for an arbitrary constructor, and [follows_standard_at] relates such
    a constructor to this one. *)
Definition URL_new (input : string) : completion URL :=
  match basic_URL_parser input with
  | Parsed u => Return u
  | Failure | Unmodelled => Throw (JsError "TypeError" "Invalid URL")
  end.

(** A constructor [platform] answers at [input] as the Standard's parser
    does, and the model covers [input]. *)
Definition follows_standard_at (platform : string -> completion URL)
           (input : string) : Prop :=
  match basic_URL_parser input with
  | Parsed u => platform input = Return u
  | Failure => platform input = Throw (JsError "TypeError" "Invalid URL")
  | Unmodelled => False
  end.

End Whatwg.

(* ------------------------------------------------------------------ *)
(** * How far a callback gets in [verifyDigiIDCallback] *)

Module Pipeline.

Section Reach.

Variable URL_new : string -> completion URL.
Variable verifySignature : string -> string -> string -> completion bool.
Variable d : DigiIDCallbackData.
Variable o : DigiIDVerifyOptions.

(** The three fields are present, the received URI parses to [pr] and
    carries the parameters [x] and [u], and the expected callback URL
    is [pe]: the call reaches the comparison of "2. Validate Callback
    URL". *)
Definition reaches_endpoint_check (pr pe : URL) (x u : string) : Prop :=
  truthy (address d) = true /\ truthy (uri d) = true /\
  truthy (signature d) = true /\
  URL_new (replace_digiid (uri d)) = Return pr /\
  searchParams_get "x" (searchParams pr) = Some x /\
  searchParams_get "u" (searchParams pr) = Some u /\
  match expectedCallbackUrl o with
  | inl s => URL_new s
  | inr v => Return v
  end = Return pe.

(** ... and the two endpoints are equal: the call reaches "Validate
    scheme consistency". *)
Definition reaches_scheme_check (pr pe : URL) (x u : string) : Prop :=
  reaches_endpoint_check pr pe x u /\
  host pr ++ pathname pr = host pe ++ pathname pe.

(** ... and the scheme check passes: the call reaches "3. Validate
    Nonce". *)
Definition reaches_nonce_check (pr pe : URL) (x u : string) : Prop :=
  reaches_scheme_check pr pe x u /\
  checkScheme u (protocol pe) = Return tt.

(** ... and the nonce check passes: the call reaches "4. Verify
    Signature". *)
Definition reaches_signature_check (pr pe : URL) (x u : string) : Prop :=
  reaches_nonce_check pr pe x u /\
  checkNonce (expectedNonce o) x = Return tt.

(** The steps from the signature check on. *)
Definition from_signature_check (x : string)
  : completion DigiIDVerificationResult :=
  (checkSignature verifySignature (uri d) (address d) (signature d) ;;;
   Return {| isValid := true;
             result_address := address d;
             result_nonce := x |})%js.

(** The steps from the nonce check on. *)
Definition from_nonce_check (x : string)
  : completion DigiIDVerificationResult :=
  (checkNonce (expectedNonce o) x ;;; from_signature_check x)%js.

(** The steps from the scheme check on. *)
Definition from_scheme_check (pe : URL) (x u : string)
  : completion DigiIDVerificationResult :=
  (checkScheme u (protocol pe) ;;; from_nonce_check x)%js.

End Reach.

End Pipeline.
Import Pipeline.

(** The messages the spec files under [NonceMismatch]. *)
Definition is_nonce_mismatch (e : thrown) : bool :=
  String.prefix "Nonce mismatch: " (message e).

(** The nonce that [options.nonce || generateNonce()] evaluates to, and the
    position of the random source after it. *)
Definition resolved_nonce (entropy : nat -> byte)
           (options : DigiIDUriOptions) (pos : nat) : string * nat :=
  if truthy_opt (nonce options)
  then (match nonce options with Some n => n | None => EmptyString end, pos)
  else (Hex.encode (map entropy (seq pos 16)), pos + 16).


(** The byte that two hexadecimal digits stand for, high digit first: the
    inverse of [Hex.of_byte], used to show that the encoding loses nothing. *)
Definition hex_digit_value (c : ascii) : nat :=
  let n := nat_of_ascii c in
  if (n <? 58)%nat then n - 48 else n - 87.

Definition byte_of_hex_pair (hi lo : ascii) : option byte :=
  Byte.of_nat (16 * hex_digit_value hi + hex_digit_value lo).

(* ------------------------------------------------------------------ *)
(** * The values of the test suite *)

Module Scenario.

Definition defaultAddress : string := "D7dVskXFpH8gTgZG9sN3d6dPUbJtZfJ2Vc".
Definition defaultNonce : string := "61616161616161616161616161616161".
Definition defaultCallback : string := "https://example.com/callback".
Definition defaultUri : string :=
  "digiid://example.com/callback?x=" ++ defaultNonce ++ "&u=0".
Definition unsecureUri : string :=
  "digiid://example.com/callback?x=" ++ defaultNonce ++ "&u=1".
Definition defaultSignature : string :=
  "AAECAwQFBgcICQoLDA0ODxAREhMUFRYXGBkaGxwdHh8gISIjJCUmJygpKissLS4vMDEyMzQ1Njc4OTo7PD0+P0BBQkNERUZHSElKS0xNTk9QUVJTVFVWV1hZWltcXV5fYGFiYw==".

Definition defaultCallbackData : DigiIDCallbackData :=
  {| address := defaultAddress;
     uri := defaultUri;
     signature := defaultSignature |}.

Definition defaultVerifyOptions : DigiIDVerifyOptions :=
  {| expectedCallbackUrl := inl defaultCallback;
     expectedNonce := Some defaultNonce |}.

(** [callbackData] with another [uri]. *)
Definition withUri (u : string) : DigiIDCallbackData :=
  {| address := defaultAddress; uri := u; signature := defaultSignature |}.

(** A signature helper replaced by a stub that resolves to [b]. *)
Definition mockResolvedValue (b : bool)
  : string -> string -> string -> completion bool :=
  fun _ _ _ => Return b.

(** A signature helper replaced by a stub that rejects with [e]. *)
Definition mockRejectedValue (e : thrown)
  : string -> string -> string -> completion bool :=
  fun _ _ _ => Throw e.

(** [Buffer.alloc(size, 'a')]: the random source of the test suite hands out
    the byte 0x61 only. *)
Definition all_0x61 : nat -> byte := fun _ => x61.

End Scenario.
Import Scenario.

(* ------------------------------------------------------------------ *)
(** * Strings *)

Lemma truthy_iff (s : string) : truthy s = true <-> s <> EmptyString.
Proof.
  destruct s; simpl; split; intro H; try discriminate; congruence.
Qed.

Lemma eqb_neq_false (a b : string) : a <> b -> (a =? b) = false.
Proof. intro H. now apply String.eqb_neq. Qed.

(* ------------------------------------------------------------------ *)
(** * [verifyDigiIDCallback], step by step *)

Section VerifySteps.

Variable URL_new : string -> completion URL.
Variable verifySignature : string -> string -> string -> completion bool.
Variable d : DigiIDCallbackData.
Variable o : DigiIDVerifyOptions.

Let verify := verifyDigiIDCallback URL_new verifySignature d o.

Lemma verify_at_endpoint_check pr pe x u :
  reaches_endpoint_check URL_new d o pr pe x u ->
  verify =
    if negb (host pr ++ pathname pr =? host pe ++ pathname pe)
    then Throw (DigiIDError (msg_url_mismatch (host pr ++ pathname pr)
                               (host pe ++ pathname pe)))
    else from_scheme_check verifySignature d o pe x u.
Proof.
  intros (Ha & Hu & Hs & Hpr & Hx & Hun & Hpe).
  unfold verify, verifyDigiIDCallback.
  rewrite Ha, Hu, Hs. simpl.
  rewrite Hpr. simpl. rewrite Hx, Hun.
  rewrite Hpe. simpl. reflexivity.
Qed.

Lemma verify_at_scheme_check pr pe x u :
  reaches_scheme_check URL_new d o pr pe x u ->
  verify = from_scheme_check verifySignature d o pe x u.
Proof.
  intros [H Heq].
  rewrite (verify_at_endpoint_check _ _ _ _ H), Heq, String.eqb_refl.
  reflexivity.
Qed.

Lemma verify_at_nonce_check pr pe x u :
  reaches_nonce_check URL_new d o pr pe x u ->
  verify = from_nonce_check verifySignature d o x.
Proof.
  intros [H Hs].
  rewrite (verify_at_scheme_check _ _ _ _ H).
  unfold from_scheme_check. rewrite Hs. reflexivity.
Qed.

Lemma verify_at_signature_check pr pe x u :
  reaches_signature_check URL_new d o pr pe x u ->
  verify = from_signature_check verifySignature d x.
Proof.
  intros [H Hn].
  rewrite (verify_at_nonce_check _ _ _ _ H).
  unfold from_nonce_check. rewrite Hn. reflexivity.
Qed.

End VerifySteps.


(* ------------------------------------------------------------------ *)
(** * Transport consistency (C1) *)

(** C1. Once the endpoints have been found equal, the transport flag [u] of
    the received URI is checked against two branches and nothing else:
    [u = "1"] with an expected scheme other than [http:] is rejected with the
    first scheme error, [u = "0"] with an expected scheme other than [https:]
    with the second (the two messages the spec files under
    [SchemeMismatch]).  Every value of [u] goes through the same two tests;
    when neither fires, the call goes on with the nonce check. *)
Theorem C1_transport_consistency
  (URL_new : string -> completion URL)
  (verifySignature : string -> string -> string -> completion bool)
  (d : DigiIDCallbackData) (o : DigiIDVerifyOptions)
  (pr pe : URL) (x u : string) :
  reaches_scheme_check URL_new d o pr pe x u ->
  (u = "1" -> protocol pe <> "http:" ->
   verifyDigiIDCallback URL_new verifySignature d o
   = Throw (DigiIDError msg_u1_not_http))
  /\ (u = "0" -> protocol pe <> "https:" ->
      verifyDigiIDCallback URL_new verifySignature d o
      = Throw (DigiIDError msg_u0_not_https))
  /\ ((u = "1" -> protocol pe = "http:") ->
      (u = "0" -> protocol pe = "https:") ->
      verifyDigiIDCallback URL_new verifySignature d o
      = from_nonce_check verifySignature d o x).
Proof.
  intro H. rewrite (verify_at_scheme_check _ _ _ _ _ _ _ _ H).
  unfold from_scheme_check, checkScheme.
  repeat split.
  - intros -> Hp. simpl. now rewrite (eqb_neq_false _ _ Hp).
  - intros -> Hp. simpl. now rewrite (eqb_neq_false _ _ Hp).
  - intros H1 H0.
    destruct (String.eqb_spec u "1") as [E1 | _].
    + rewrite (H1 E1). subst u. reflexivity.
    + destruct (String.eqb_spec u "0") as [E0 | _].
      * rewrite (H0 E0). subst u. reflexivity.
      * reflexivity.
Qed.

(** The second test of the suite on the scheme: [u=1] in the URI while the
    expected callback URL is [https]. *)
Lemma C1_transport_consistency_witness :
  verifyDigiIDCallback Whatwg.URL_new (mockResolvedValue true)
    (withUri unsecureUri) defaultVerifyOptions
  = Throw (DigiIDError msg_u1_not_http).
Proof.
  eapply (C1_transport_consistency Whatwg.URL_new (mockResolvedValue true)
            (withUri unsecureUri) defaultVerifyOptions).
  - repeat split; reflexivity.
  - reflexivity.
  - discriminate.
Defined.

(** A flag that is neither [0] nor [1] fires neither branch: the call goes
    on whatever the scheme of the expected callback URL is. *)
Example other_flag_value_passes_both_branches :
  verifyDigiIDCallback Whatwg.URL_new (mockResolvedValue true)
    (withUri "digiid://example.com/callback?x=abc&u=2")
    {| expectedCallbackUrl := inl "https://example.com/callback";
       expectedNonce := None |}
  = Return {| isValid := true;
              result_address := defaultAddress;
              result_nonce := "abc" |}
  /\ verifyDigiIDCallback Whatwg.URL_new (mockResolvedValue true)
       (withUri "digiid://example.com/callback?x=abc&u=2")
       {| expectedCallbackUrl := inl "http://example.com/callback";
          expectedNonce := None |}
     = Return {| isValid := true;
                 result_address := defaultAddress;
                 result_nonce := "abc" |}.
Proof. split; reflexivity. Qed.

(* ------------------------------------------------------------------ *)
(** * Endpoint match (C9) *)

(** C9. The host and path read from the received URI are compared with the
    host and path of the expected callback URL by string equality, with
    nothing done to either side: when they differ the call is rejected with
    the message the spec files under [EndpointMismatch], which quotes the
    received value and then the expected one; when they are equal the call
    goes on with the scheme check. *)
Theorem C9_endpoint_match
  (URL_new : string -> completion URL)
  (verifySignature : string -> string -> string -> completion bool)
  (d : DigiIDCallbackData) (o : DigiIDVerifyOptions)
  (pr pe : URL) (x u : string) :
  reaches_endpoint_check URL_new d o pr pe x u ->
  (host pr ++ pathname pr <> host pe ++ pathname pe ->
   verifyDigiIDCallback URL_new verifySignature d o
   = Throw (DigiIDError
              ("Callback URL mismatch: URI contained "
               ++ dq ++ (host pr ++ pathname pr) ++ dq
               ++ ", expected " ++ dq ++ (host pe ++ pathname pe) ++ dq)))
  /\ (host pr ++ pathname pr = host pe ++ pathname pe ->
      verifyDigiIDCallback URL_new verifySignature d o
      = from_scheme_check verifySignature d o pe x u).
Proof.
  intro H. rewrite (verify_at_endpoint_check _ _ _ _ _ _ _ _ H).
  split; intro Hc.
  - rewrite (eqb_neq_false _ _ Hc). reflexivity.
  - rewrite Hc, String.eqb_refl. reflexivity.
Qed.

(** The scenario of the test suite: the URI names [example.com/callback],
    the expected callback URL is [https://different.com/callback]. *)
Lemma C9_endpoint_match_witness :
  verifyDigiIDCallback Whatwg.URL_new (mockResolvedValue true)
    defaultCallbackData
    {| expectedCallbackUrl := inl "https://different.com/callback";
       expectedNonce := Some defaultNonce |}
  = Throw (DigiIDError
             ("Callback URL mismatch: URI contained "
              ++ dq ++ "example.com/callback" ++ dq
              ++ ", expected " ++ dq ++ "different.com/callback" ++ dq)).
Proof.
  apply (C9_endpoint_match Whatwg.URL_new (mockResolvedValue true)
           defaultCallbackData
           {| expectedCallbackUrl := inl "https://different.com/callback";
              expectedNonce := Some defaultNonce |}
           {| protocol := "http:"; host := "example.com";
              pathname := "/callback";
              searchParams := [("x", defaultNonce); ("u", "0")] |}
           {| protocol := "https:"; host := "different.com";
              pathname := "/callback"; searchParams := [] |}
           defaultNonce "0").
  - repeat split; reflexivity.
  - discriminate.
Defined.

(** The comparison tells letter case apart: a path that differs from the
    expected one by the case of one letter is a mismatch. *)
Example endpoint_match_is_case_sensitive :
  verifyDigiIDCallback Whatwg.URL_new (mockResolvedValue true)
    (withUri "digiid://example.com/Callback?x=abc&u=0")
    {| expectedCallbackUrl := inl defaultCallback; expectedNonce := None |}
  = Throw (DigiIDError
             (msg_url_mismatch "example.com/Callback"
                "example.com/callback")).
Proof. reflexivity. Qed.

(* ------------------------------------------------------------------ *)
(** * Nonce check (C7, C10) *)

(** None of the messages of the other steps starts like the one of the
    nonce check. *)
Lemma own_errors_are_not_nonce_mismatch (m : string) :
  is_nonce_mismatch (DigiIDError msg_missing_data) = false
  /\ is_nonce_mismatch (DigiIDError (msg_invalid_uri m)) = false
  /\ is_nonce_mismatch (DigiIDError msg_missing_params) = false
  /\ is_nonce_mismatch (DigiIDError (msg_invalid_expected m)) = false
  /\ is_nonce_mismatch (DigiIDError msg_u1_not_http) = false
  /\ is_nonce_mismatch (DigiIDError msg_u0_not_https) = false
  /\ is_nonce_mismatch (DigiIDError msg_invalid_signature) = false
  /\ is_nonce_mismatch (DigiIDError (msg_unexpected m)) = false
  /\ is_nonce_mismatch (DigiIDError (msg_verification_failed m)) = false.
Proof. repeat split. Qed.

Lemma url_mismatch_is_not_nonce_mismatch (r e : string) :
  is_nonce_mismatch (DigiIDError (msg_url_mismatch r e)) = false.
Proof. reflexivity. Qed.

(** What [checkSignature] throws is the helper's own [DigiIDError], or has a
    message of the signature step. *)
Lemma checkSignature_throw
  (verifySignature : string -> string -> string -> completion bool)
  (uri address signature : string) (e : thrown) :
  checkSignature verifySignature uri address signature = Throw e ->
  verifySignature uri address signature = Throw e
  \/ e = DigiIDError msg_invalid_signature
  \/ exists m, e = DigiIDError (msg_unexpected m).
Proof.
  unfold checkSignature.
  destruct (verifySignature uri address signature) as [[|] | [m | n m]];
    simpl; intro H; inversion H; subst; eauto.
Qed.

(** When the nonce check is skipped, a rejection that reads like a nonce
    mismatch can only be an error that the signature helper itself threw. *)
Lemma no_nonce_mismatch_when_skipped
  (URL_new : string -> completion URL)
  (verifySignature : string -> string -> string -> completion bool)
  (d : DigiIDCallbackData) (o : DigiIDVerifyOptions) (e : thrown) :
  truthy_opt (expectedNonce o) = false ->
  verifyDigiIDCallback URL_new verifySignature d o = Throw e ->
  is_nonce_mismatch e = true ->
  verifySignature (uri d) (address d) (signature d) = Throw e.
Proof.
  intros Hskip.
  assert (Hn : forall x, checkNonce (expectedNonce o) x = Return tt).
  { intro x. unfold checkNonce.
    destruct (expectedNonce o) as [s|]; [|reflexivity].
    simpl in Hskip. now rewrite Hskip. }
  unfold verifyDigiIDCallback.
  destruct (negb (truthy (address d)) || negb (truthy (uri d))
            || negb (truthy (signature d))).
  { intros [= <-]. discriminate. }
  destruct (URL_new (replace_digiid (uri d))) as [pr | e1]; simpl.
  2:{ intros [= <-]. discriminate. }
  destruct (searchParams_get "x" (searchParams pr)) as [x|].
  2:{ intros [= <-]. discriminate. }
  destruct (searchParams_get "u" (searchParams pr)) as [u|].
  2:{ intros [= <-]. discriminate. }
  destruct (match expectedCallbackUrl o with
            | inl s => URL_new s
            | inr v => Return v
            end) as [pe | e2]; simpl.
  2:{ intros [= <-]. discriminate. }
  destruct (negb (host pr ++ pathname pr =? host pe ++ pathname pe)).
  { intros [= <-]. discriminate. }
  unfold checkScheme.
  destruct ((u =? "1") && negb (protocol pe =? "http:")); simpl.
  { intros [= <-]. discriminate. }
  destruct ((u =? "0") && negb (protocol pe =? "https:")); simpl.
  { intros [= <-]. discriminate. }
  rewrite Hn. simpl.
  destruct (checkSignature verifySignature (uri d) (address d) (signature d))
    as [[] | e3] eqn:Hsig; simpl; [discriminate|].
  intros [= <-] Hk.
  destruct (checkSignature_throw _ _ _ _ _ Hsig) as [H | [-> | [m ->]]];
    [exact H | discriminate | discriminate].
Qed.

(** Whatever the parser and the signature helper do, a rejection of
    [verifyDigiIDCallback] is a [DigiIDError]. *)
Lemma verify_rejects_with_DigiIDError
  (URL_new : string -> completion URL)
  (verifySignature : string -> string -> string -> completion bool)
  (d : DigiIDCallbackData) (o : DigiIDVerifyOptions) (e : thrown) :
  verifyDigiIDCallback URL_new verifySignature d o = Throw e ->
  instanceof_DigiIDError e = true.
Proof.
  unfold verifyDigiIDCallback.
  destruct (negb (truthy (address d)) || negb (truthy (uri d))
            || negb (truthy (signature d))).
  { now intros [= <-]. }
  destruct (URL_new (replace_digiid (uri d))) as [pr | e1]; simpl.
  2:{ now intros [= <-]. }
  destruct (searchParams_get "x" (searchParams pr)) as [x|].
  2:{ now intros [= <-]. }
  destruct (searchParams_get "u" (searchParams pr)) as [u|].
  2:{ now intros [= <-]. }
  destruct (match expectedCallbackUrl o with
            | inl s => URL_new s
            | inr v => Return v
            end) as [pe | e2]; simpl.
  2:{ now intros [= <-]. }
  destruct (negb (host pr ++ pathname pr =? host pe ++ pathname pe)).
  { now intros [= <-]. }
  unfold checkScheme.
  destruct ((u =? "1") && negb (protocol pe =? "http:")); simpl.
  { now intros [= <-]. }
  destruct ((u =? "0") && negb (protocol pe =? "https:")); simpl.
  { now intros [= <-]. }
  unfold checkNonce.
  destruct (expectedNonce o) as [expected|]; simpl.
  - destruct (truthy expected && negb (x =? expected)); simpl.
    { now intros [= <-]. }
    unfold checkSignature.
    destruct (verifySignature (uri d) (address d) (signature d))
      as [[|] | [m | n m]]; simpl; intros [= <-]; reflexivity.
  - unfold checkSignature.
    destruct (verifySignature (uri d) (address d) (signature d))
      as [[|] | [m | n m]]; simpl; intros [= <-]; reflexivity.
Qed.

(** With the helper of the repository, what the library throws is reported
    under the message of the helper, so without an expected nonce a call is
    rejected with something that reads like a nonce mismatch only if loading
    the library threw that very error. *)
Lemma no_nonce_mismatch_with_repository_helper
  (URL_new : string -> completion URL)
  (lib : completion (string -> string -> string -> completion bool))
  (d : DigiIDCallbackData) (o : DigiIDVerifyOptions) (e : thrown) :
  truthy_opt (expectedNonce o) = false ->
  verifyDigiIDCallback URL_new (_internalVerifySignature lib) d o = Throw e ->
  is_nonce_mismatch e = true ->
  lib = Throw e.
Proof.
  intros Hskip Hv Hk.
  pose proof (no_nonce_mismatch_when_skipped _ _ _ _ _ Hskip Hv Hk) as H.
  unfold _internalVerifySignature in H.
  destruct lib as [f | e0]; simpl in H.
  - destruct (f (uri d) (address d) (signature d)); simpl in H;
      [discriminate H|].
    injection H as <-. discriminate Hk.
  - now injection H as <-.
Qed.

(** C7, as the code has it. (a) When [expectedNonce] is omitted, the nonce
    step throws nothing: a rejection that reads like a nonce mismatch can
    only be an error the signature helper threw itself.  (b) When
    [expectedNonce] is supplied and is not the empty string, the received
    nonce is compared with it by string equality: a different nonce is
    rejected with the message the spec files under [NonceMismatch], an equal
    one lets the call go on with the signature check. *)
Theorem C7_nonce_check
  (URL_new : string -> completion URL)
  (verifySignature : string -> string -> string -> completion bool)
  (d : DigiIDCallbackData) (o : DigiIDVerifyOptions) :
  (expectedNonce o = None ->
   forall e,
     verifyDigiIDCallback URL_new verifySignature d o = Throw e ->
     is_nonce_mismatch e = true ->
     verifySignature (uri d) (address d) (signature d) = Throw e)
  /\ (forall pr pe x u expected,
        reaches_nonce_check URL_new d o pr pe x u ->
        expectedNonce o = Some expected ->
        expected <> EmptyString ->
        (x <> expected ->
         verifyDigiIDCallback URL_new verifySignature d o
         = Throw (DigiIDError (msg_nonce_mismatch x expected)))
        /\ (x = expected ->
            verifyDigiIDCallback URL_new verifySignature d o
            = from_signature_check verifySignature d x)).
Proof.
  split.
  - intros Hnone e. apply no_nonce_mismatch_when_skipped.
    now rewrite Hnone.
  - intros pr pe x u expected H Hsome Hne.
    rewrite (verify_at_nonce_check _ _ _ _ _ _ _ _ H).
    unfold from_nonce_check, checkNonce. rewrite Hsome.
    apply truthy_iff in Hne. rewrite Hne. simpl.
    split; intro Hc.
    + rewrite (eqb_neq_false _ _ Hc). reflexivity.
    + rewrite Hc, String.eqb_refl. reflexivity.
Qed.

(** The test "should throw if nonce mismatch", and a call without
    [expectedNonce] whose helper rejects with an error that reads like a
    nonce mismatch. *)
Lemma C7_nonce_check_witness :
  verifyDigiIDCallback Whatwg.URL_new (mockResolvedValue true)
    defaultCallbackData
    {| expectedCallbackUrl := inl defaultCallback;
       expectedNonce := Some "different-nonce" |}
  = Throw (DigiIDError (msg_nonce_mismatch defaultNonce "different-nonce"))
  /\ mockRejectedValue (DigiIDError (msg_nonce_mismatch "a" "b"))
       defaultUri defaultAddress defaultSignature
     = Throw (DigiIDError (msg_nonce_mismatch "a" "b")).
Proof.
  split.
  - apply (proj2 (C7_nonce_check Whatwg.URL_new (mockResolvedValue true)
                    defaultCallbackData
                    {| expectedCallbackUrl := inl defaultCallback;
                       expectedNonce := Some "different-nonce" |})
             {| protocol := "http:"; host := "example.com";
                pathname := "/callback";
                searchParams := [("x", defaultNonce); ("u", "0")] |}
             {| protocol := "https:"; host := "example.com";
                pathname := "/callback"; searchParams := [] |}
             defaultNonce "0" "different-nonce").
    + repeat split; reflexivity.
    + reflexivity.
    + discriminate.
    + discriminate.
  - apply (proj1 (C7_nonce_check Whatwg.URL_new
                    (mockRejectedValue
                       (DigiIDError (msg_nonce_mismatch "a" "b")))
                    defaultCallbackData
                    {| expectedCallbackUrl := inl defaultCallback;
                       expectedNonce := None |})).
    + reflexivity.
    + reflexivity.
    + reflexivity.
Defined.

(** C7 as the spec words it fails when [expectedNonce] is supplied as the
    empty string: the received nonce differs from it, and the call resolves
    all the same. *)
Lemma C7_counterexample :
  "abc" <> EmptyString
  /\ verifyDigiIDCallback Whatwg.URL_new (mockResolvedValue true)
       (withUri "digiid://example.com/callback?x=abc&u=0")
       {| expectedCallbackUrl := inl defaultCallback;
          expectedNonce := Some EmptyString |}
     = Return {| isValid := true;
                 result_address := defaultAddress;
                 result_nonce := "abc" |}.
Proof. split; [discriminate | reflexivity]. Qed.

(** C10. An [expectedNonce] that is the empty string is the same as none:
    the two calls complete alike, whatever the payload, the parser and the
    signature helper; and neither is rejected by the nonce step, also when
    the nonce of the URI is not empty. *)
Theorem C10_empty_expected_nonce
  (URL_new : string -> completion URL)
  (verifySignature : string -> string -> string -> completion bool)
  (d : DigiIDCallbackData) (expected : string + URL) :
  verifyDigiIDCallback URL_new verifySignature d
    {| expectedCallbackUrl := expected; expectedNonce := Some EmptyString |}
  = verifyDigiIDCallback URL_new verifySignature d
      {| expectedCallbackUrl := expected; expectedNonce := None |}
  /\ forall e,
       verifyDigiIDCallback URL_new verifySignature d
         {| expectedCallbackUrl := expected;
            expectedNonce := Some EmptyString |} = Throw e ->
       is_nonce_mismatch e = true ->
       verifySignature (uri d) (address d) (signature d) = Throw e.
Proof.
  split.
  - reflexivity.
  - intro e. now apply no_nonce_mismatch_when_skipped.
Qed.

(** A payload whose nonce is [abc], verified against the empty expected
    nonce and against none. *)
Lemma C10_empty_expected_nonce_witness :
  verifyDigiIDCallback Whatwg.URL_new
    (mockRejectedValue (DigiIDError (msg_nonce_mismatch "abc" EmptyString)))
    (withUri "digiid://example.com/callback?x=abc&u=0")
    {| expectedCallbackUrl := inl defaultCallback;
       expectedNonce := Some EmptyString |}
  = Throw (DigiIDError (msg_nonce_mismatch "abc" EmptyString))
  /\ mockRejectedValue (DigiIDError (msg_nonce_mismatch "abc" EmptyString))
       "digiid://example.com/callback?x=abc&u=0" defaultAddress
       defaultSignature
     = Throw (DigiIDError (msg_nonce_mismatch "abc" EmptyString)).
Proof.
  split; [reflexivity|].
  apply (proj2 (C10_empty_expected_nonce Whatwg.URL_new
                  (mockRejectedValue
                     (DigiIDError (msg_nonce_mismatch "abc" EmptyString)))
                  (withUri "digiid://example.com/callback?x=abc&u=0")
                  (inl defaultCallback))); reflexivity.
Defined.

(* ------------------------------------------------------------------ *)
(** * Signature delegation (C8) *)

(** What the helper of the repository completes with: the truthiness of the
    library's answer; a [DigiIDError] with the library's message when the
    library throws; the loader's error when the library cannot be loaded. *)
Lemma internalVerifySignature_outcome
  (lib : completion (string -> string -> string -> completion bool))
  (uri address signature : string) :
  match lib with
  | Throw e => _internalVerifySignature lib uri address signature = Throw e
  | Return Message_verify =>
      match Message_verify uri address signature with
      | Return b =>
          _internalVerifySignature lib uri address signature = Return b
      | Throw e =>
          _internalVerifySignature lib uri address signature
          = Throw (DigiIDError
                     ("Signature verification failed: "
                      ++ (if truthy (message e) then message e
                          else toString e)))
      end
  end.
Proof.
  unfold _internalVerifySignature.
  destruct lib as [f | e]; simpl; [|reflexivity].
  destruct (f uri address signature); reflexivity.
Qed.

(** C8. When all the checks before it have passed, the signature helper is
    called with the URI, the address and the signature of the payload, and:
    a [false] result is rejected with [Invalid signature.]
    ([InvalidSignature]); a [DigiIDError] thrown by the helper is the
    rejection of the call, unchanged; any other error is replaced by a
    [DigiIDError] whose message ends with the message of that error
    ([VerificationFailure]); a [true] result resolves the call with the
    address of the payload and the nonce of its URI. *)
Theorem C8_signature_delegation
  (URL_new : string -> completion URL)
  (verifySignature : string -> string -> string -> completion bool)
  (d : DigiIDCallbackData) (o : DigiIDVerifyOptions)
  (pr pe : URL) (x u : string) :
  reaches_signature_check URL_new d o pr pe x u ->
  (verifySignature (uri d) (address d) (signature d) = Return false ->
   verifyDigiIDCallback URL_new verifySignature d o
   = Throw (DigiIDError "Invalid signature."))
  /\ (forall e,
        verifySignature (uri d) (address d) (signature d) = Throw e ->
        instanceof_DigiIDError e = true ->
        verifyDigiIDCallback URL_new verifySignature d o = Throw e)
  /\ (forall e,
        verifySignature (uri d) (address d) (signature d) = Throw e ->
        instanceof_DigiIDError e = false ->
        verifyDigiIDCallback URL_new verifySignature d o
        = Throw (DigiIDError
                   ("Unexpected error during signature verification: "
                    ++ message e)))
  /\ (verifySignature (uri d) (address d) (signature d) = Return true ->
      verifyDigiIDCallback URL_new verifySignature d o
      = Return {| isValid := true;
                  result_address := address d;
                  result_nonce := x |}).
Proof.
  intro H. rewrite (verify_at_signature_check _ _ _ _ _ _ _ _ H).
  unfold from_signature_check, checkSignature.
  repeat split.
  - intros ->. reflexivity.
  - intros e -> He. simpl. now rewrite He.
  - intros e -> He. simpl. now rewrite He.
  - intros ->. reflexivity.
Qed.

(** The four outcomes at the payload of the test suite: a stub resolving to
    [false]; a stub rejecting with the domain error [Malformed signature];
    a stub rejecting with the generic error [Unexpected network issue]; a
    stub resolving to [true]. *)
Lemma C8_signature_delegation_witness :
  verifyDigiIDCallback Whatwg.URL_new (mockResolvedValue false)
    defaultCallbackData defaultVerifyOptions
  = Throw (DigiIDError "Invalid signature.")
  /\ verifyDigiIDCallback Whatwg.URL_new
       (mockRejectedValue (DigiIDError "Malformed signature"))
       defaultCallbackData defaultVerifyOptions
     = Throw (DigiIDError "Malformed signature")
  /\ verifyDigiIDCallback Whatwg.URL_new
       (mockRejectedValue (JsError "Error" "Unexpected network issue"))
       defaultCallbackData defaultVerifyOptions
     = Throw (DigiIDError
                "Unexpected error during signature verification: Unexpected network issue")
  /\ verifyDigiIDCallback Whatwg.URL_new (mockResolvedValue true)
       defaultCallbackData defaultVerifyOptions
     = Return {| isValid := true;
                 result_address := defaultAddress;
                 result_nonce := defaultNonce |}.
Proof.
  assert (H : reaches_signature_check Whatwg.URL_new defaultCallbackData
               defaultVerifyOptions
               {| protocol := "http:"; host := "example.com";
                  pathname := "/callback";
                  searchParams := [("x", defaultNonce); ("u", "0")] |}
               {| protocol := "https:"; host := "example.com";
                  pathname := "/callback"; searchParams := [] |}
               defaultNonce "0")
    by (repeat split; reflexivity).
  split; [|split; [|split]].
  - apply (proj1 (C8_signature_delegation _ (mockResolvedValue false)
                    _ _ _ _ _ _ H)).
    reflexivity.
  - apply (proj1 (proj2 (C8_signature_delegation _
                           (mockRejectedValue
                              (DigiIDError "Malformed signature"))
                           _ _ _ _ _ _ H))); reflexivity.
  - apply (proj1 (proj2 (proj2 (C8_signature_delegation _
                                  (mockRejectedValue
                                     (JsError "Error"
                                        "Unexpected network issue"))
                                  _ _ _ _ _ _ H)))
             (JsError "Error" "Unexpected network issue")); reflexivity.
  - apply (proj2 (proj2 (proj2 (C8_signature_delegation _
                                  (mockResolvedValue true)
                                  _ _ _ _ _ _ H)))).
    reflexivity.
Defined.

(** With the helper of the repository, an error of the library reaches the
    caller as the helper's [DigiIDError], not wrapped a second time. *)
Example library_error_is_reported_once :
  verifyDigiIDCallback Whatwg.URL_new
    (_internalVerifySignature
       (Return (fun _ _ _ => Throw (JsError "Error" "Malformed signature"))))
    defaultCallbackData defaultVerifyOptions
  = Throw (DigiIDError "Signature verification failed: Malformed signature").
Proof. reflexivity. Qed.

(* ------------------------------------------------------------------ *)
(** * [generateDigiIDUri] *)

Lemma string_app_assoc (a b c : string) : (a ++ b) ++ c = a ++ b ++ c.
Proof. induction a as [|ch a IH]; simpl; [reflexivity | now rewrite IH]. Qed.

Lemma string_length_app (a b : string) :
  String.length (a ++ b) = String.length a + String.length b.
Proof. induction a as [|ch a IH]; simpl; [reflexivity | now rewrite IH]. Qed.

(** [generateDigiIDUri] once the callback URL is there and has parsed. *)
Lemma generate_parsed
  (URL_new : string -> completion URL) (entropy : nat -> byte)
  (options : DigiIDUriOptions) (pos : nat) (parsedUrl : URL) :
  callbackUrl options <> EmptyString ->
  URL_new (callbackUrl options) = Return parsedUrl ->
  generateDigiIDUri URL_new entropy options pos
  = (if truthy_flag (unsecure options)
        && negb (protocol parsedUrl =? "http:")
     then Throw (DigiIDError msg_unsecure_not_http)
     else if negb (truthy_flag (unsecure options))
             && negb (protocol parsedUrl =? "https:")
     then Throw (DigiIDError msg_must_use_https)
     else Return ("digiid://" ++ (host parsedUrl ++ pathname parsedUrl)
                    ++ "?x=" ++ fst (resolved_nonce entropy options pos)
                    ++ "&u="
                    ++ (if truthy_flag (unsecure options) then "1" else "0")),
     snd (resolved_nonce entropy options pos)).
Proof.
  intros Hcb Hp. apply truthy_iff in Hcb.
  unfold generateDigiIDUri, resolved_nonce, generateNonce, randomBytes.
  rewrite Hcb, Hp. simpl negb. cbv iota.
  destruct (truthy_opt (nonce options)); cbv beta iota zeta;
    destruct (truthy_flag (unsecure options)
              && negb (protocol parsedUrl =? "http:"));
    try reflexivity;
    destruct (negb (truthy_flag (unsecure options))
              && negb (protocol parsedUrl =? "https:"));
    reflexivity.
Qed.

(** A call that returns has had a callback URL that parsed. *)
Lemma generate_returns
  (URL_new : string -> completion URL) (entropy : nat -> byte)
  (options : DigiIDUriOptions) (pos : nat) (uri : string) :
  fst (generateDigiIDUri URL_new entropy options pos) = Return uri ->
  callbackUrl options <> EmptyString
  /\ exists parsedUrl, URL_new (callbackUrl options) = Return parsedUrl.
Proof.
  unfold generateDigiIDUri.
  destruct (truthy (callbackUrl options)) eqn:Hcb; simpl; [|discriminate].
  apply truthy_iff in Hcb.
  destruct (URL_new (callbackUrl options)) as [p | e]; simpl;
    [|discriminate].
  intros _. eauto.
Qed.

(* ------------------------------------------------------------------ *)
(** * Scheme and flag (C4) *)

(** C4. For a callback URL that is there and has parsed: with [unsecure]
    true the scheme has to be [http:], otherwise the call throws the first
    scheme error; with [unsecure] false or unset the scheme has to be
    [https:], otherwise it throws the second, whose message is different; so
    a call returns only for [http:] with the flag and [https:] without it,
    and then the URI ends with [&u=1] and [&u=0] respectively. *)
Theorem C4_scheme_flag_consistency
  (URL_new : string -> completion URL) (entropy : nat -> byte)
  (options : DigiIDUriOptions) (pos : nat) (parsedUrl : URL) :
  callbackUrl options <> EmptyString ->
  URL_new (callbackUrl options) = Return parsedUrl ->
  (truthy_flag (unsecure options) = true ->
   protocol parsedUrl <> "http:" ->
   fst (generateDigiIDUri URL_new entropy options pos)
   = Throw (DigiIDError
              "Unsecure flag is true, but callback URL does not use http protocol."))
  /\ (truthy_flag (unsecure options) = false ->
      protocol parsedUrl <> "https:" ->
      fst (generateDigiIDUri URL_new entropy options pos)
      = Throw (DigiIDError
                 "Callback URL must use https protocol unless unsecure flag is set to true."))
  /\ msg_unsecure_not_http <> msg_must_use_https
  /\ (truthy_flag (unsecure options) = true ->
      protocol parsedUrl = "http:" ->
      exists body,
        fst (generateDigiIDUri URL_new entropy options pos)
        = Return (body ++ "&u=1"))
  /\ (truthy_flag (unsecure options) = false ->
      protocol parsedUrl = "https:" ->
      exists body,
        fst (generateDigiIDUri URL_new entropy options pos)
        = Return (body ++ "&u=0"))
  /\ (forall uri,
        fst (generateDigiIDUri URL_new entropy options pos) = Return uri ->
        (truthy_flag (unsecure options) = true
         /\ protocol parsedUrl = "http:")
        \/ (truthy_flag (unsecure options) = false
            /\ protocol parsedUrl = "https:")).
Proof.
  intros Hcb Hp. rewrite (generate_parsed _ _ _ _ _ Hcb Hp). simpl fst.
  split; [|split; [|split; [|split; [|split]]]].
  - intros -> Hs. simpl. now rewrite (eqb_neq_false _ _ Hs).
  - intros -> Hs. simpl. now rewrite (eqb_neq_false _ _ Hs).
  - discriminate.
  - intros -> ->. simpl.
    exists ("digiid://" ++ (host parsedUrl ++ pathname parsedUrl)
            ++ "?x=" ++ fst (resolved_nonce entropy options pos)).
    now rewrite !string_app_assoc.
  - intros -> ->. simpl.
    exists ("digiid://" ++ (host parsedUrl ++ pathname parsedUrl)
            ++ "?x=" ++ fst (resolved_nonce entropy options pos)).
    now rewrite !string_app_assoc.
  - intros uri.
    destruct (truthy_flag (unsecure options)); simpl.
    + destruct (String.eqb_spec (protocol parsedUrl) "http:");
        simpl; [auto | discriminate].
    + destruct (String.eqb_spec (protocol parsedUrl) "https:");
        simpl; [auto | discriminate].
Qed.

(** The tests of the suite on the flag: [https] with the flag, [http]
    without it, [http://localhost:3000/login] with it, and the default
    callback without it. *)
Lemma C4_scheme_flag_consistency_witness :
  fst (generateDigiIDUri Whatwg.URL_new all_0x61
         {| callbackUrl := "https://example.com";
            nonce := None; unsecure := Some true |} 0)
  = Throw (DigiIDError msg_unsecure_not_http)
  /\ fst (generateDigiIDUri Whatwg.URL_new all_0x61
            {| callbackUrl := "http://example.com";
               nonce := None; unsecure := None |} 0)
     = Throw (DigiIDError msg_must_use_https)
  /\ (exists body,
         fst (generateDigiIDUri Whatwg.URL_new all_0x61
                {| callbackUrl := "http://localhost:3000/login";
                   nonce := None; unsecure := Some true |} 0)
         = Return (body ++ "&u=1"))
  /\ (exists body,
         fst (generateDigiIDUri Whatwg.URL_new all_0x61
                {| callbackUrl := defaultCallback;
                   nonce := None; unsecure := None |} 0)
         = Return (body ++ "&u=0")).
Proof.
  split; [|split; [|split]].
  - apply (proj1 (C4_scheme_flag_consistency Whatwg.URL_new all_0x61
                    {| callbackUrl := "https://example.com";
                       nonce := None; unsecure := Some true |} 0
                    {| protocol := "https:"; host := "example.com";
                       pathname := "/"; searchParams := [] |}
                    ltac:(discriminate) eq_refl));
      [reflexivity | discriminate].
  - apply (proj1 (proj2
                    (C4_scheme_flag_consistency Whatwg.URL_new all_0x61
                       {| callbackUrl := "http://example.com";
                          nonce := None; unsecure := None |} 0
                       {| protocol := "http:"; host := "example.com";
                          pathname := "/"; searchParams := [] |}
                       ltac:(discriminate) eq_refl)));
      [reflexivity | discriminate].
  - apply (proj1 (proj2 (proj2 (proj2
                    (C4_scheme_flag_consistency Whatwg.URL_new all_0x61
                       {| callbackUrl := "http://localhost:3000/login";
                          nonce := None; unsecure := Some true |} 0
                       {| protocol := "http:"; host := "localhost:3000";
                          pathname := "/login"; searchParams := [] |}
                       ltac:(discriminate) eq_refl)))));
      reflexivity.
  - apply (proj1 (proj2 (proj2 (proj2 (proj2
                    (C4_scheme_flag_consistency Whatwg.URL_new all_0x61
                       {| callbackUrl := defaultCallback;
                          nonce := None; unsecure := None |} 0
                       {| protocol := "https:"; host := "example.com";
                          pathname := "/callback"; searchParams := [] |}
                       ltac:(discriminate) eq_refl))))));
      reflexivity.
Defined.


(* ------------------------------------------------------------------ *)
(** * The nonce (C3, C5) *)

Lemma hex_of_byte_shape (b : byte) :
  String.length (Hex.of_byte b) = 2
  /\ Hex.all_lower_hex (Hex.of_byte b) = true.
Proof. destruct b; split; reflexivity. Qed.

Lemma all_lower_hex_app (a b : string) :
  Hex.all_lower_hex (a ++ b)
  = Hex.all_lower_hex a && Hex.all_lower_hex b.
Proof.
  induction a as [|c a IH]; simpl; [reflexivity|].
  now rewrite IH, andb_assoc.
Qed.

(** The hexadecimal encoding of a buffer has two lowercase hexadecimal
    digits for each byte. *)
Lemma hex_encode_shape (buf : list byte) :
  String.length (Hex.encode buf) = 2 * List.length buf
  /\ Hex.all_lower_hex (Hex.encode buf) = true.
Proof.
  induction buf as [|b buf [IHl IHh]]; [split; reflexivity|].
  change (Hex.encode (b :: buf)) with (Hex.of_byte b ++ Hex.encode buf).
  destruct (hex_of_byte_shape b) as [Hl Hh].
  rewrite string_length_app, all_lower_hex_app, Hl, Hh, IHl, IHh.
  split; [simpl; lia | reflexivity].
Qed.

Lemma map_constant_on_range (entropy : nat -> byte) (b : byte) (n pos : nat) :
  (forall i, pos <= i < pos + n -> entropy i = b) ->
  map entropy (seq pos n) = repeat b n.
Proof.
  revert pos. induction n as [|n IH]; intros pos H; simpl; [reflexivity|].
  rewrite (H pos) by lia. f_equal. apply IH. intros i Hi. apply H. lia.
Qed.

(** C5. When the sixteen bytes that the random source hands out next are all
    0x61, the URI generated for [https://example.com/callback], without a
    nonce and without the flag, is the one of the scenario. *)
Theorem C5_default_nonce_scenario (entropy : nat -> byte) (pos : nat) :
  (forall i, pos <= i < pos + 16 -> entropy i = x61) ->
  fst (generateDigiIDUri Whatwg.URL_new entropy
         {| callbackUrl := "https://example.com/callback";
            nonce := None; unsecure := None |} pos)
  = Return
      "digiid://example.com/callback?x=61616161616161616161616161616161&u=0".
Proof.
  intro H.
  rewrite (generate_parsed Whatwg.URL_new entropy
             {| callbackUrl := "https://example.com/callback";
                nonce := None; unsecure := None |} pos
             {| protocol := "https:"; host := "example.com";
                pathname := "/callback"; searchParams := [] |}
             ltac:(discriminate) eq_refl).
  unfold resolved_nonce. simpl truthy_opt. cbv iota.
  rewrite (map_constant_on_range entropy x61 16 pos H).
  reflexivity.
Qed.

(** The random source of the test suite. *)
Lemma C5_default_nonce_scenario_witness :
  fst (generateDigiIDUri Whatwg.URL_new all_0x61
         {| callbackUrl := "https://example.com/callback";
            nonce := None; unsecure := None |} 0)
  = Return
      "digiid://example.com/callback?x=61616161616161616161616161616161&u=0".
Proof.
  apply (C5_default_nonce_scenario all_0x61 0). intros i _. reflexivity.
Defined.

(** C3, as the code has it. (a) A nonce that is supplied and is not the
    empty string is used as it is, whatever it holds, and the random source
    is left where it was, whether the call returns or throws.  (b) Without a
    nonce, or with the empty string for one, a call that returns has taken
    exactly sixteen bytes from the random source, and the nonce of the URI is
    their encoding: thirty-two lowercase hexadecimal digits. *)
Theorem C3_nonce_resolution
  (URL_new : string -> completion URL) (entropy : nat -> byte)
  (options : DigiIDUriOptions) (pos : nat) :
  (forall n,
     nonce options = Some n -> n <> EmptyString ->
     snd (generateDigiIDUri URL_new entropy options pos) = pos
     /\ forall uri,
          fst (generateDigiIDUri URL_new entropy options pos) = Return uri ->
          exists parsedUrl,
            URL_new (callbackUrl options) = Return parsedUrl
            /\ uri = "digiid://" ++ (host parsedUrl ++ pathname parsedUrl)
                      ++ "?x=" ++ n ++ "&u="
                      ++ (if truthy_flag (unsecure options)
                          then "1" else "0"))
  /\ (nonce options = None \/ nonce options = Some EmptyString ->
      forall uri,
        fst (generateDigiIDUri URL_new entropy options pos) = Return uri ->
        snd (generateDigiIDUri URL_new entropy options pos) = pos + 16
        /\ String.length (Hex.encode (map entropy (seq pos 16))) = 32
        /\ Hex.all_lower_hex (Hex.encode (map entropy (seq pos 16))) = true
        /\ exists parsedUrl,
             URL_new (callbackUrl options) = Return parsedUrl
             /\ uri = "digiid://" ++ (host parsedUrl ++ pathname parsedUrl)
                       ++ "?x=" ++ Hex.encode (map entropy (seq pos 16))
                       ++ "&u="
                       ++ (if truthy_flag (unsecure options)
                           then "1" else "0")).
Proof.
  split.
  - intros n Hn Hne. apply truthy_iff in Hne.
    assert (Hr : resolved_nonce entropy options pos = (n, pos)).
    { unfold resolved_nonce. rewrite Hn. simpl. now rewrite Hne. }
    split.
    + unfold generateDigiIDUri.
      destruct (truthy (callbackUrl options)); simpl; [|reflexivity].
      destruct (URL_new (callbackUrl options)) as [p | e]; simpl;
        [|reflexivity].
      rewrite Hn. simpl. rewrite Hne.
      destruct (truthy_flag (unsecure options)
                && negb (protocol p =? "http:")); [reflexivity|].
      destruct (negb (truthy_flag (unsecure options))
                && negb (protocol p =? "https:")); reflexivity.
    + intros uri Hu.
      destruct (generate_returns _ _ _ _ _ Hu) as [Hcb [p Hp]].
      rewrite (generate_parsed _ _ _ _ _ Hcb Hp), Hr in Hu. simpl in Hu.
      exists p. split; [exact Hp|].
      destruct (truthy_flag (unsecure options)
                && negb (protocol p =? "http:")); [discriminate|].
      destruct (negb (truthy_flag (unsecure options))
                && negb (protocol p =? "https:")); [discriminate|].
      now injection Hu as <-.
  - intros Hn uri Hu.
    assert (Hr : resolved_nonce entropy options pos
                 = (Hex.encode (map entropy (seq pos 16)), pos + 16)).
    { unfold resolved_nonce. now destruct Hn as [-> | ->]. }
    destruct (generate_returns _ _ _ _ _ Hu) as [Hcb [p Hp]].
    rewrite (generate_parsed _ _ _ _ _ Hcb Hp), Hr in *.
    destruct (hex_encode_shape (map entropy (seq pos 16))) as [Hl Hh].
    rewrite length_map, length_seq in Hl.
    repeat split; try assumption.
    exists p. split; [exact Hp|]. simpl in Hu.
    destruct (truthy_flag (unsecure options)
              && negb (protocol p =? "http:")); [discriminate|].
    destruct (negb (truthy_flag (unsecure options))
              && negb (protocol p =? "https:")); [discriminate|].
    now injection Hu as <-.
Qed.

(** The test "should use the provided nonce", and the default nonce of the
    test suite. *)
Lemma C3_nonce_resolution_witness :
  (snd (generateDigiIDUri Whatwg.URL_new all_0x61
          {| callbackUrl := defaultCallback;
             nonce := Some "my-custom-nonce-123"; unsecure := None |} 0) = 0
   /\ forall uri,
        fst (generateDigiIDUri Whatwg.URL_new all_0x61
               {| callbackUrl := defaultCallback;
                  nonce := Some "my-custom-nonce-123";
                  unsecure := None |} 0) = Return uri ->
        exists parsedUrl,
          Whatwg.URL_new defaultCallback = Return parsedUrl
          /\ uri = "digiid://" ++ (host parsedUrl ++ pathname parsedUrl)
                   ++ "?x=" ++ "my-custom-nonce-123" ++ "&u=" ++ "0")
  /\ snd (generateDigiIDUri Whatwg.URL_new all_0x61
            {| callbackUrl := defaultCallback;
               nonce := None; unsecure := None |} 0) = 16.
Proof.
  split.
  - apply (proj1 (C3_nonce_resolution Whatwg.URL_new all_0x61
                    {| callbackUrl := defaultCallback;
                       nonce := Some "my-custom-nonce-123";
                       unsecure := None |} 0)
             "my-custom-nonce-123"); [reflexivity | discriminate].
  - apply (proj2 (C3_nonce_resolution Whatwg.URL_new all_0x61
                    {| callbackUrl := defaultCallback;
                       nonce := None; unsecure := None |} 0)
             (or_introl eq_refl)
             ("digiid://example.com/callback?x=" ++ defaultNonce ++ "&u=0")
             eq_refl).
Defined.

(** C3 as the spec words it fails for a nonce that is present and is the
    empty string: the URI does not carry it, and the random source has been
    read. *)
Lemma C3_counterexample :
  generateDigiIDUri Whatwg.URL_new all_0x61
    {| callbackUrl := defaultCallback;
       nonce := Some EmptyString; unsecure := None |} 0
  = (Return
       "digiid://example.com/callback?x=61616161616161616161616161616161&u=0",
     16)
  /\ generateDigiIDUri Whatwg.URL_new all_0x61
       {| callbackUrl := defaultCallback;
          nonce := Some EmptyString; unsecure := None |} 0
     <> (Return "digiid://example.com/callback?x=&u=0", 0).
Proof. split; [reflexivity | discriminate]. Qed.

(* ------------------------------------------------------------------ *)
(** * Authority and path (C2) *)






Lemma Return_injective (A : Type) (a b : A) : Return a = Return b -> a = b.
Proof. now intros [= ->]. Qed.





(** Nor is a trailing slash that is absent from a path kept absent: the
    parser resolves dot segments. *)
Example dot_segment_adds_trailing_slash :
  fst (generateDigiIDUri Whatwg.URL_new all_0x61
         {| callbackUrl := "https://example.com/a/.";
            nonce := Some "N"; unsecure := None |} 0)
  = Return "digiid://example.com/a/?x=N&u=0".
Proof. reflexivity. Qed.

(* ------------------------------------------------------------------ *)
(** * Generation followed by verification (C6) *)

(** C6 fails on the code for an [https] callback URL on port 80.  The URI is
    generated with the port in it; to parse it, [verifyDigiIDCallback]
    replaces [digiid:] by [http:], and for [http] the port 80 is the default,
    which the parser drops from [host]; the expected callback URL keeps it.
    The call is rejected for an endpoint mismatch although URI, endpoint and
    nonce are the ones of the generation. *)
Theorem C6_roundtrip_fails_on_https_port_80 :
  fst (generateDigiIDUri Whatwg.URL_new all_0x61
         {| callbackUrl := "https://example.com:80/callback";
            nonce := Some "abc"; unsecure := None |} 0)
  = Return "digiid://example.com:80/callback?x=abc&u=0"
  /\ verifyDigiIDCallback Whatwg.URL_new (mockResolvedValue true)
       (withUri "digiid://example.com:80/callback?x=abc&u=0")
       {| expectedCallbackUrl := inl "https://example.com:80/callback";
          expectedNonce := Some "abc" |}
     = Throw (DigiIDError
                (msg_url_mismatch "example.com/callback"
                   "example.com:80/callback")).
Proof. split; reflexivity. Qed.

(** For the callback URL of the test suite the round trip succeeds. *)
Example roundtrip_default_callback :
  fst (generateDigiIDUri Whatwg.URL_new all_0x61
         {| callbackUrl := defaultCallback;
            nonce := Some "abc"; unsecure := None |} 0)
  = Return "digiid://example.com/callback?x=abc&u=0"
  /\ verifyDigiIDCallback Whatwg.URL_new (mockResolvedValue true)
       (withUri "digiid://example.com/callback?x=abc&u=0")
       {| expectedCallbackUrl := inl defaultCallback;
          expectedNonce := Some "abc" |}
     = Return {| isValid := true;
                 result_address := defaultAddress;
                 result_nonce := "abc" |}.
Proof. split; reflexivity. Qed.

(** What the round trip needs of the URL parser: that the generated URI,
    read with [http:] in place of [digiid:], parses to the host and path of
    the callback URL and to the nonce and the flag it was built with.  Then
    verification with the expectations of the generation resolves with the
    address of the payload and the nonce of the URI. *)
Lemma roundtrip_when_reparse_agrees
  (URL_new : string -> completion URL) (entropy : nat -> byte)
  (verifySignature : string -> string -> string -> completion bool)
  (E N : string) (flag : option bool) (pos : nat)
  (uri addr sig : string) (pE pr : URL) :
  fst (generateDigiIDUri URL_new entropy
         {| callbackUrl := E; nonce := Some N; unsecure := flag |} pos)
  = Return uri ->
  addr <> EmptyString -> sig <> EmptyString ->
  URL_new E = Return pE ->
  URL_new (replace_digiid uri) = Return pr ->
  host pr ++ pathname pr = host pE ++ pathname pE ->
  searchParams_get "x" (searchParams pr) = Some N ->
  searchParams_get "u" (searchParams pr)
  = Some (if truthy_flag flag then "1" else "0") ->
  verifySignature uri addr sig = Return true ->
  verifyDigiIDCallback URL_new verifySignature
    {| address := addr; uri := uri; signature := sig |}
    {| expectedCallbackUrl := inl E; expectedNonce := Some N |}
  = Return {| isValid := true; result_address := addr; result_nonce := N |}.
Proof.
  intros Hgen Haddr Hsig HpE Hpr Hsame Hx Hu Hcap.
  destruct (generate_returns _ _ _ _ _ Hgen) as [Hcb _].
  rewrite (generate_parsed _ _ _ _ _ Hcb HpE) in Hgen. simpl in Hgen.
  assert (Hscheme : checkScheme (if truthy_flag flag then "1" else "0")
                      (protocol pE) = Return tt
                    /\ truthy uri = true).
  { unfold checkScheme. destruct (truthy_flag flag); simpl in *.
    - destruct (protocol pE =? "http:"); simpl in *; [|discriminate].
      injection Hgen as <-. split; reflexivity.
    - destruct (protocol pE =? "https:"); simpl in *; [|discriminate].
      injection Hgen as <-. split; reflexivity. }
  destruct Hscheme as [Hscheme Huri].
  apply truthy_iff in Haddr, Hsig.
  rewrite (verify_at_signature_check URL_new verifySignature _ _ pr pE N
             (if truthy_flag flag then "1" else "0")).
  - unfold from_signature_check, checkSignature. simpl.
    rewrite Hcap. reflexivity.
  - repeat split; simpl; try assumption.
    unfold checkNonce. now rewrite String.eqb_refl, andb_false_r.
Qed.


(* ------------------------------------------------------------------ *)
(** * The rejections of [verifyDigiIDCallback] before the endpoint check *)

(** The first four exits of [verifyDigiIDCallback], in the order of the
    source, or else the call reaches the comparison of the endpoints. *)
Lemma verify_early_exits
  (URL_new : string -> completion URL)
  (verifySignature : string -> string -> string -> completion bool)
  (d : DigiIDCallbackData) (o : DigiIDVerifyOptions) :
  ((address d = EmptyString \/ uri d = EmptyString
    \/ signature d = EmptyString)
   /\ verifyDigiIDCallback URL_new verifySignature d o
      = Throw (DigiIDError msg_missing_data))
  \/ (exists e,
        URL_new (replace_digiid (uri d)) = Throw e
        /\ verifyDigiIDCallback URL_new verifySignature d o
           = Throw (DigiIDError (msg_invalid_uri (message e))))
  \/ (exists pr,
        URL_new (replace_digiid (uri d)) = Return pr
        /\ (searchParams_get "x" (searchParams pr) = None
            \/ searchParams_get "u" (searchParams pr) = None)
        /\ verifyDigiIDCallback URL_new verifySignature d o
           = Throw (DigiIDError msg_missing_params))
  \/ (exists e,
        match expectedCallbackUrl o with
        | inl s => URL_new s
        | inr v => Return v
        end = Throw e
        /\ verifyDigiIDCallback URL_new verifySignature d o
           = Throw (DigiIDError (msg_invalid_expected (message e))))
  \/ (exists pr pe x u, reaches_endpoint_check URL_new d o pr pe x u).
Proof.
  unfold verifyDigiIDCallback, reaches_endpoint_check.
  destruct (address d) as [|a0 a] eqn:Ha; [left; auto|].
  destruct (uri d) as [|u0 u1] eqn:Hu; [left; auto|].
  destruct (signature d) as [|s0 s1] eqn:Hs; [left; auto|].
  right. simpl.
  destruct (URL_new (replace_digiid (String u0 u1))) as [pr | e] eqn:Hpr;
    simpl; [|left; eauto].
  right.
  destruct (searchParams_get "x" (searchParams pr)) as [x|] eqn:Hx;
    [|left; exists pr; auto].
  destruct (searchParams_get "u" (searchParams pr)) as [u|] eqn:Hun;
    [|left; exists pr; auto].
  right.
  destruct (match expectedCallbackUrl o with
            | inl s => URL_new s
            | inr v => Return v
            end) as [pe | e] eqn:Hpe; simpl; [|left; eauto].
  right. exists pr, pe, x, u. repeat split; auto.
Qed.

(** X1. An empty [address], [uri] or [signature] is rejected with the
    message for missing callback data, whatever the other fields, the
    options, the URL parser and the signature helper are. *)
Theorem X1_missing_callback_data
  (URL_new : string -> completion URL)
  (verifySignature : string -> string -> string -> completion bool)
  (d : DigiIDCallbackData) (o : DigiIDVerifyOptions) :
  address d = EmptyString \/ uri d = EmptyString
  \/ signature d = EmptyString ->
  verifyDigiIDCallback URL_new verifySignature d o
  = Throw (DigiIDError
             "Missing required callback data: address, uri, or signature.").
Proof.
  intro H. unfold verifyDigiIDCallback.
  destruct H as [-> | [-> | ->]]; simpl.
  - reflexivity.
  - now rewrite orb_true_r.
  - now rewrite orb_true_r.
Qed.

Lemma X1_missing_callback_data_witness :
  verifyDigiIDCallback Whatwg.URL_new (mockResolvedValue true)
    {| address := defaultAddress; uri := defaultUri;
       signature := EmptyString |}
    defaultVerifyOptions
  = Throw (DigiIDError msg_missing_data).
Proof.
  apply X1_missing_callback_data. right. right. reflexivity.
Defined.

(** X2. When the three fields are there and the received URI, read with
    [http:] for a leading [digiid:], does not parse, the call is rejected
    with a [DigiIDError] whose message is [Invalid URI received in
    callback: ] followed by the message of the parser's error; the expected
    callback URL and the helper play no part. *)
Theorem X2_invalid_received_uri
  (URL_new : string -> completion URL)
  (verifySignature : string -> string -> string -> completion bool)
  (d : DigiIDCallbackData) (o : DigiIDVerifyOptions) (e : thrown) :
  address d <> EmptyString -> uri d <> EmptyString ->
  signature d <> EmptyString ->
  URL_new (replace_digiid (uri d)) = Throw e ->
  verifyDigiIDCallback URL_new verifySignature d o
  = Throw (DigiIDError ("Invalid URI received in callback: " ++ message e)).
Proof.
  intros Ha Hu Hs Hp. apply truthy_iff in Ha, Hu, Hs.
  unfold verifyDigiIDCallback. rewrite Ha, Hu, Hs, Hp. reflexivity.
Qed.

(** The test "should throw for invalid URI format in callback data". *)
Lemma X2_invalid_received_uri_witness :
  verifyDigiIDCallback Whatwg.URL_new (mockResolvedValue true)
    (withUri "invalid-uri-format") defaultVerifyOptions
  = Throw (DigiIDError "Invalid URI received in callback: Invalid URL").
Proof.
  apply (X2_invalid_received_uri Whatwg.URL_new (mockResolvedValue true)
           (withUri "invalid-uri-format") defaultVerifyOptions
           (JsError "TypeError" "Invalid URL"));
    try discriminate; reflexivity.
Defined.

(** X3. A received URI that parses but lacks the parameter [x] or the
    parameter [u] is rejected for that before the expected callback URL is
    looked at: the rejection is the same whether or not the expected
    callback URL parses. *)
Theorem X3_missing_parameters_first
  (URL_new : string -> completion URL)
  (verifySignature : string -> string -> string -> completion bool)
  (d : DigiIDCallbackData) (o : DigiIDVerifyOptions) (pr : URL) :
  address d <> EmptyString -> uri d <> EmptyString ->
  signature d <> EmptyString ->
  URL_new (replace_digiid (uri d)) = Return pr ->
  searchParams_get "x" (searchParams pr) = None
  \/ searchParams_get "u" (searchParams pr) = None ->
  verifyDigiIDCallback URL_new verifySignature d o
  = Throw (DigiIDError "URI missing nonce (x) or unsecure (u) parameter.").
Proof.
  intros Ha Hu Hs Hp Hm. apply truthy_iff in Ha, Hu, Hs.
  unfold verifyDigiIDCallback. rewrite Ha, Hu, Hs, Hp. simpl.
  destruct Hm as [-> | ->]; [reflexivity|].
  now destruct (searchParams_get "x" (searchParams pr)).
Qed.

(** A URI without [u], verified against an expected callback URL that does
    not parse. *)
Lemma X3_missing_parameters_first_witness :
  verifyDigiIDCallback Whatwg.URL_new (mockResolvedValue true)
    (withUri "digiid://example.com/callback?x=abc")
    {| expectedCallbackUrl := inl "invalid-url"; expectedNonce := None |}
  = Throw (DigiIDError msg_missing_params).
Proof.
  apply (X3_missing_parameters_first Whatwg.URL_new (mockResolvedValue true)
           (withUri "digiid://example.com/callback?x=abc")
           {| expectedCallbackUrl := inl "invalid-url";
              expectedNonce := None |}
           {| protocol := "http:"; host := "example.com";
              pathname := "/callback"; searchParams := [("x", "abc")] |});
    try discriminate; try reflexivity.
  right. reflexivity.
Defined.

(** X4. When the received URI is in order and the expected callback URL is
    a string that does not parse, the call is rejected with [Invalid
    expectedCallbackUrl provided: ] followed by the message of the parser's
    error. *)
Theorem X4_invalid_expected_callback
  (URL_new : string -> completion URL)
  (verifySignature : string -> string -> string -> completion bool)
  (d : DigiIDCallbackData) (expected : string) (n : option string)
  (pr : URL) (x u : string) (e : thrown) :
  address d <> EmptyString -> uri d <> EmptyString ->
  signature d <> EmptyString ->
  URL_new (replace_digiid (uri d)) = Return pr ->
  searchParams_get "x" (searchParams pr) = Some x ->
  searchParams_get "u" (searchParams pr) = Some u ->
  URL_new expected = Throw e ->
  verifyDigiIDCallback URL_new verifySignature d
    {| expectedCallbackUrl := inl expected; expectedNonce := n |}
  = Throw (DigiIDError
             ("Invalid expectedCallbackUrl provided: " ++ message e)).
Proof.
  intros Ha Hu Hs Hp Hx Hun He. apply truthy_iff in Ha, Hu, Hs.
  unfold verifyDigiIDCallback. rewrite Ha, Hu, Hs, Hp. simpl.
  rewrite Hx, Hun, He. reflexivity.
Qed.

(** The test "should throw for invalid expectedCallbackUrl format". *)
Lemma X4_invalid_expected_callback_witness :
  verifyDigiIDCallback Whatwg.URL_new (mockResolvedValue true)
    defaultCallbackData
    {| expectedCallbackUrl := inl "invalid-url";
       expectedNonce := Some defaultNonce |}
  = Throw (DigiIDError
             "Invalid expectedCallbackUrl provided: Invalid URL").
Proof.
  apply (X4_invalid_expected_callback Whatwg.URL_new
           (mockResolvedValue true) defaultCallbackData "invalid-url"
           (Some defaultNonce)
           {| protocol := "http:"; host := "example.com";
              pathname := "/callback";
              searchParams := [("x", defaultNonce); ("u", "0")] |}
           defaultNonce "0" (JsError "TypeError" "Invalid URL"));
    try discriminate; reflexivity.
Defined.

(** X5. An expected callback URL given as a [URL] object is used as it is:
    the call completes exactly as with the string that the platform parses
    to that object. *)
Theorem X5_expected_url_object
  (URL_new : string -> completion URL)
  (verifySignature : string -> string -> string -> completion bool)
  (d : DigiIDCallbackData) (s : string) (v : URL) (n : option string) :
  URL_new s = Return v ->
  verifyDigiIDCallback URL_new verifySignature d
    {| expectedCallbackUrl := inr v; expectedNonce := n |}
  = verifyDigiIDCallback URL_new verifySignature d
      {| expectedCallbackUrl := inl s; expectedNonce := n |}.
Proof.
  intro H. unfold verifyDigiIDCallback. simpl. now rewrite H.
Qed.

Lemma X5_expected_url_object_witness :
  verifyDigiIDCallback Whatwg.URL_new (mockResolvedValue true)
    defaultCallbackData
    {| expectedCallbackUrl :=
         inr {| protocol := "https:"; host := "example.com";
                pathname := "/callback"; searchParams := [] |};
       expectedNonce := Some defaultNonce |}
  = verifyDigiIDCallback Whatwg.URL_new (mockResolvedValue true)
      defaultCallbackData defaultVerifyOptions.
Proof.
  apply (X5_expected_url_object Whatwg.URL_new (mockResolvedValue true)
           defaultCallbackData defaultCallback).
  reflexivity.
Defined.

(* ------------------------------------------------------------------ *)
(** * When [verifyDigiIDCallback] resolves *)

(** A call that resolves has passed every check, its helper has answered
    [true], and its result is made of the payload. *)
Lemma verify_resolves_inv
  (URL_new : string -> completion URL)
  (verifySignature : string -> string -> string -> completion bool)
  (d : DigiIDCallbackData) (o : DigiIDVerifyOptions)
  (r : DigiIDVerificationResult) :
  verifyDigiIDCallback URL_new verifySignature d o = Return r ->
  exists pr pe x u,
    reaches_signature_check URL_new d o pr pe x u
    /\ verifySignature (uri d) (address d) (signature d) = Return true
    /\ r = {| isValid := true;
              result_address := address d;
              result_nonce := x |}.
Proof.
  intro Hr.
  destruct (verify_early_exits URL_new verifySignature d o)
    as [[_ H] | [[e [_ H]] | [[pr [_ [_ H]]] | [[e [_ H]] | H]]]];
    try (rewrite H in Hr; discriminate).
  destruct H as (pr & pe & x & u & H).
  rewrite (verify_at_endpoint_check _ _ _ _ _ _ _ _ H) in Hr.
  destruct (String.eqb_spec (host pr ++ pathname pr)
              (host pe ++ pathname pe)) as [Heq | _];
    simpl in Hr; [|discriminate].
  unfold from_scheme_check in Hr.
  destruct (checkScheme u (protocol pe)) as [[] | e1] eqn:Hsch;
    simpl in Hr; [|discriminate].
  unfold from_nonce_check in Hr.
  destruct (checkNonce (expectedNonce o) x) as [[] | e2] eqn:Hn;
    simpl in Hr; [|discriminate].
  unfold from_signature_check, checkSignature in Hr.
  destruct (verifySignature (uri d) (address d) (signature d))
    as [[|] | e3] eqn:Hsig; simpl in Hr.
  - injection Hr as <-. exists pr, pe, x, u.
    repeat split; try assumption; apply H.
  - discriminate.
  - destruct (instanceof_DigiIDError e3); discriminate.
Qed.

(** X6. [verifyDigiIDCallback] resolves exactly when the three fields are
    there, the received URI parses and carries [x] and [u], the expected
    callback URL is available, host and path agree, the scheme check and the
    nonce check pass, and the signature helper, called with the URI, the
    address and the signature of the payload, answers [true]; the result
    then holds the address of the payload and the nonce of the URI. *)
Theorem X6_resolves_exactly_when
  (URL_new : string -> completion URL)
  (verifySignature : string -> string -> string -> completion bool)
  (d : DigiIDCallbackData) (o : DigiIDVerifyOptions)
  (r : DigiIDVerificationResult) :
  verifyDigiIDCallback URL_new verifySignature d o = Return r
  <-> exists pr pe x u,
        reaches_signature_check URL_new d o pr pe x u
        /\ verifySignature (uri d) (address d) (signature d) = Return true
        /\ r = {| isValid := true;
                  result_address := address d;
                  result_nonce := x |}.
Proof.
  split; [apply verify_resolves_inv|].
  intros (pr & pe & x & u & H & Hsig & ->).
  rewrite (verify_at_signature_check _ _ _ _ _ _ _ _ H).
  unfold from_signature_check, checkSignature. now rewrite Hsig.
Qed.

(** The successful call of the test suite, read in both directions. *)
Lemma X6_resolves_exactly_when_witness :
  verifyDigiIDCallback Whatwg.URL_new (mockResolvedValue true)
    defaultCallbackData defaultVerifyOptions
  = Return {| isValid := true;
              result_address := defaultAddress;
              result_nonce := defaultNonce |}
  /\ exists pr pe x u,
       reaches_signature_check Whatwg.URL_new defaultCallbackData
         defaultVerifyOptions pr pe x u
       /\ mockResolvedValue true (uri defaultCallbackData)
            (address defaultCallbackData) (signature defaultCallbackData)
          = Return true
       /\ {| isValid := true;
             result_address := defaultAddress;
             result_nonce := defaultNonce |}
          = {| isValid := true;
               result_address := address defaultCallbackData;
               result_nonce := x |}.
Proof.
  assert (H : verifyDigiIDCallback Whatwg.URL_new (mockResolvedValue true)
                defaultCallbackData defaultVerifyOptions
              = Return {| isValid := true;
                          result_address := defaultAddress;
                          result_nonce := defaultNonce |}).
  { apply (proj2 (X6_resolves_exactly_when Whatwg.URL_new
                    (mockResolvedValue true) defaultCallbackData
                    defaultVerifyOptions _)).
    exists {| protocol := "http:"; host := "example.com";
              pathname := "/callback";
              searchParams := [("x", defaultNonce); ("u", "0")] |},
           {| protocol := "https:"; host := "example.com";
              pathname := "/callback"; searchParams := [] |},
           defaultNonce, "0".
    repeat split; reflexivity. }
  split; [exact H|].
  exact (proj1 (X6_resolves_exactly_when Whatwg.URL_new
                  (mockResolvedValue true) defaultCallbackData
                  defaultVerifyOptions _) H).
Defined.

(** X7. A call that resolves under an [expectedNonce] that is not the empty
    string returns that very nonce, and the received URI carries it as its
    first [x]: no payload with another nonce gets through. *)
Theorem X7_resolved_nonce_is_expected
  (URL_new : string -> completion URL)
  (verifySignature : string -> string -> string -> completion bool)
  (d : DigiIDCallbackData) (o : DigiIDVerifyOptions)
  (r : DigiIDVerificationResult) (expected : string) :
  verifyDigiIDCallback URL_new verifySignature d o = Return r ->
  expectedNonce o = Some expected ->
  expected <> EmptyString ->
  result_nonce r = expected
  /\ exists pr,
       URL_new (replace_digiid (uri d)) = Return pr
       /\ searchParams_get "x" (searchParams pr) = Some expected.
Proof.
  intros Hr He Hne.
  destruct (verify_resolves_inv _ _ _ _ _ Hr)
    as (pr & pe & x & u & Hreach & _ & ->).
  destruct Hreach as [[[Hend _] _] Hn].
  unfold checkNonce in Hn. rewrite He in Hn.
  apply truthy_iff in Hne. rewrite Hne in Hn. simpl in Hn.
  destruct (String.eqb_spec x expected) as [-> | _];
    simpl in Hn; [|discriminate].
  split; [reflexivity|].
  exists pr. split; apply Hend.
Qed.

Lemma X7_resolved_nonce_is_expected_witness :
  result_nonce {| isValid := true;
                  result_address := defaultAddress;
                  result_nonce := defaultNonce |} = defaultNonce
  /\ exists pr,
       Whatwg.URL_new (replace_digiid (uri defaultCallbackData)) = Return pr
       /\ searchParams_get "x" (searchParams pr) = Some defaultNonce.
Proof.
  apply (X7_resolved_nonce_is_expected Whatwg.URL_new
           (mockResolvedValue true) defaultCallbackData
           defaultVerifyOptions);
    [reflexivity | reflexivity | discriminate].
Defined.

(** X8. The signature helper comes last: whatever a call is rejected with
    when the helper answers [true], it is rejected with under any other
    helper as well, so a failed check on the URI, the endpoint, the scheme or
    the nonce is never replaced by a verdict on the signature. *)
Theorem X8_checks_before_signature
  (URL_new : string -> completion URL)
  (verifySignature : string -> string -> string -> completion bool)
  (d : DigiIDCallbackData) (o : DigiIDVerifyOptions) (e : thrown) :
  verifyDigiIDCallback URL_new (fun _ _ _ => Return true) d o = Throw e ->
  verifyDigiIDCallback URL_new verifySignature d o = Throw e.
Proof.
  unfold verifyDigiIDCallback.
  destruct (negb (truthy (address d)) || negb (truthy (uri d))
            || negb (truthy (signature d))); [auto|].
  destruct (URL_new (replace_digiid (uri d))) as [pr | e1]; simpl; [|auto].
  destruct (searchParams_get "x" (searchParams pr)) as [x|]; [|auto].
  destruct (searchParams_get "u" (searchParams pr)) as [u|]; [|auto].
  destruct (match expectedCallbackUrl o with
            | inl s => URL_new s
            | inr v => Return v
            end) as [pe | e2]; simpl; [|auto].
  destruct (negb (host pr ++ pathname pr =? host pe ++ pathname pe));
    [auto|].
  destruct (checkScheme u (protocol pe)) as [[] | e3]; simpl; [|auto].
  destruct (checkNonce (expectedNonce o) x) as [[] | e4]; simpl; [|auto].
  discriminate.
Qed.

(** A nonce mismatch is reported also when the helper would reject the
    signature. *)
Lemma X8_checks_before_signature_witness :
  verifyDigiIDCallback Whatwg.URL_new (mockResolvedValue false)
    defaultCallbackData
    {| expectedCallbackUrl := inl defaultCallback;
       expectedNonce := Some "different-nonce" |}
  = Throw (DigiIDError (msg_nonce_mismatch defaultNonce "different-nonce")).
Proof.
  apply (X8_checks_before_signature Whatwg.URL_new (mockResolvedValue false)
           defaultCallbackData
           {| expectedCallbackUrl := inl defaultCallback;
              expectedNonce := Some "different-nonce" |}).
  reflexivity.
Defined.

(** Every rejection is a [DigiIDError]: the parser's [TypeError] at the
    payload of the test "should throw for invalid URI format". *)
Lemma verify_rejects_with_DigiIDError_witness :
  instanceof_DigiIDError
    (DigiIDError "Invalid URI received in callback: Invalid URL") = true.
Proof.
  apply (verify_rejects_with_DigiIDError Whatwg.URL_new
           (mockResolvedValue true) (withUri "invalid-uri-format")
           defaultVerifyOptions).
  reflexivity.
Defined.

(** X9. The scheme of the received URI is not checked: a payload whose URI
    starts with [http:] is verified exactly like the payload whose URI
    starts with [digiid:] and goes on alike, provided the signature helper
    answers alike on the two URIs. *)
Theorem X9_http_form_accepted
  (URL_new : string -> completion URL)
  (verifySignature : string -> string -> string -> completion bool)
  (addr sig rest : string) (o : DigiIDVerifyOptions) :
  verifySignature ("http:" ++ rest) addr sig
  = verifySignature ("digiid:" ++ rest) addr sig ->
  verifyDigiIDCallback URL_new verifySignature
    {| address := addr; uri := "http:" ++ rest; signature := sig |} o
  = verifyDigiIDCallback URL_new verifySignature
      {| address := addr; uri := "digiid:" ++ rest; signature := sig |} o.
Proof.
  intro H. unfold verifyDigiIDCallback, checkSignature.
  simpl in H |- *. rewrite H. reflexivity.
Qed.

Lemma X9_http_form_accepted_witness :
  verifyDigiIDCallback Whatwg.URL_new (mockResolvedValue true)
    (withUri ("http:" ++ "//example.com/callback?x=abc&u=0"))
    {| expectedCallbackUrl := inl defaultCallback; expectedNonce := None |}
  = verifyDigiIDCallback Whatwg.URL_new (mockResolvedValue true)
      (withUri ("digiid:" ++ "//example.com/callback?x=abc&u=0"))
      {| expectedCallbackUrl := inl defaultCallback; expectedNonce := None |}.
Proof.
  apply (X9_http_form_accepted Whatwg.URL_new (mockResolvedValue true)
           defaultAddress defaultSignature
           "//example.com/callback?x=abc&u=0").
  reflexivity.
Defined.

(* ------------------------------------------------------------------ *)
(** * The signature helper of the repository *)

(** X10. Once the library is loaded, [_internalVerifySignature] returns what
    the library returns, and reports anything the library throws as a
    [DigiIDError] whose message is [Signature verification failed: ]
    followed by the message of the thrown error, or by its name when the
    message is empty; so it throws nothing but [DigiIDError]s.  When the
    library cannot be loaded, the loader's error leaves the helper as it
    is. *)
Theorem X10_helper_outcomes
  (Message_verify : string -> string -> string -> completion bool)
  (uri address signature : string) :
  (forall b,
     Message_verify uri address signature = Return b ->
     _internalVerifySignature (Return Message_verify) uri address signature
     = Return b)
  /\ (forall e,
        Message_verify uri address signature = Throw e ->
        message e <> EmptyString ->
        _internalVerifySignature (Return Message_verify)
          uri address signature
        = Throw (DigiIDError
                   ("Signature verification failed: " ++ message e)))
  /\ (forall e,
        Message_verify uri address signature = Throw e ->
        message e = EmptyString ->
        _internalVerifySignature (Return Message_verify)
          uri address signature
        = Throw (DigiIDError ("Signature verification failed: " ++ name e)))
  /\ (forall e,
        _internalVerifySignature (Return Message_verify)
          uri address signature = Throw e ->
        instanceof_DigiIDError e = true)
  /\ (forall e,
        _internalVerifySignature (Throw e) uri address signature = Throw e).
Proof.
  unfold _internalVerifySignature. simpl.
  split; [|split; [|split; [|split]]].
  - intros b ->. reflexivity.
  - intros e -> Hm. apply truthy_iff in Hm. simpl. now rewrite Hm.
  - intros e -> Hm. simpl. unfold toString. rewrite Hm. simpl.
    destruct (name e) eqn:Hn; reflexivity.
  - intros e.
    destruct (Message_verify uri address signature); simpl;
      [discriminate|].
    now intros [= <-].
  - reflexivity.
Qed.

(** A library that throws [Malformed signature], one that throws an error
    without a message, and one that throws a [DigiIDError]. *)
Lemma X10_helper_outcomes_witness :
  _internalVerifySignature
    (Return (fun _ _ _ => Throw (JsError "Error" "Malformed signature")))
    defaultUri defaultAddress defaultSignature
  = Throw (DigiIDError "Signature verification failed: Malformed signature")
  /\ _internalVerifySignature
       (Return (fun _ _ _ => Throw (JsError "RangeError" EmptyString)))
       defaultUri defaultAddress defaultSignature
     = Throw (DigiIDError "Signature verification failed: RangeError")
  /\ instanceof_DigiIDError
       (DigiIDError "Signature verification failed: inner") = true.
Proof.
  split; [|split].
  - apply (proj1 (proj2 (X10_helper_outcomes
                           (fun _ _ _ =>
                              Throw (JsError "Error" "Malformed signature"))
                           defaultUri defaultAddress defaultSignature))
             (JsError "Error" "Malformed signature"));
      [reflexivity | discriminate].
  - apply (proj1 (proj2 (proj2 (X10_helper_outcomes
                                  (fun _ _ _ =>
                                     Throw (JsError "RangeError" EmptyString))
                                  defaultUri defaultAddress
                                  defaultSignature)))
             (JsError "RangeError" EmptyString)); reflexivity.
  - apply (proj1 (proj2 (proj2 (proj2 (X10_helper_outcomes
                                         (fun _ _ _ =>
                                            Throw (DigiIDError "inner"))
                                         defaultUri defaultAddress
                                         defaultSignature))))).
    reflexivity.
Defined.

(** X11. With the helper of the repository, a call that has passed the
    checks is rejected with the helper's [Signature verification failed: ]
    error when the library throws, not wrapped a second time; the wrapping
    as [Unexpected error during signature verification: ] is what happens
    when the library cannot be loaded. *)
Theorem X11_library_errors_through_verify
  (URL_new : string -> completion URL)
  (d : DigiIDCallbackData) (o : DigiIDVerifyOptions)
  (pr pe : URL) (x u : string) :
  reaches_signature_check URL_new d o pr pe x u ->
  (forall Message_verify e,
     Message_verify (uri d) (address d) (signature d) = Throw e ->
     verifyDigiIDCallback URL_new
       (_internalVerifySignature (Return Message_verify)) d o
     = Throw (DigiIDError
                ("Signature verification failed: "
                 ++ (if truthy (message e) then message e else toString e))))
  /\ (forall n m,
        verifyDigiIDCallback URL_new
          (_internalVerifySignature (Throw (JsError n m))) d o
        = Throw (DigiIDError
                   ("Unexpected error during signature verification: "
                    ++ m))).
Proof.
  intro H. split.
  - intros f e He.
    rewrite (verify_at_signature_check _ _ _ _ _ _ _ _ H).
    unfold from_signature_check, checkSignature, _internalVerifySignature.
    simpl. rewrite He. reflexivity.
  - intros n m.
    rewrite (verify_at_signature_check _ _ _ _ _ _ _ _ H).
    reflexivity.
Qed.

Lemma X11_library_errors_through_verify_witness :
  verifyDigiIDCallback Whatwg.URL_new
    (_internalVerifySignature
       (Return (fun _ _ _ => Throw (JsError "Error" "Malformed signature"))))
    defaultCallbackData defaultVerifyOptions
  = Throw (DigiIDError "Signature verification failed: Malformed signature")
  /\ verifyDigiIDCallback Whatwg.URL_new
       (_internalVerifySignature
          (Throw (JsError "Error" "Cannot find module 'digibyte-message'")))
       defaultCallbackData defaultVerifyOptions
     = Throw (DigiIDError
                "Unexpected error during signature verification: Cannot find module 'digibyte-message'").
Proof.
  assert (H : reaches_signature_check Whatwg.URL_new defaultCallbackData
                defaultVerifyOptions
                {| protocol := "http:"; host := "example.com";
                   pathname := "/callback";
                   searchParams := [("x", defaultNonce); ("u", "0")] |}
                {| protocol := "https:"; host := "example.com";
                   pathname := "/callback"; searchParams := [] |}
                defaultNonce "0")
    by (repeat split; reflexivity).
  split.
  - apply (proj1 (X11_library_errors_through_verify _ _ _ _ _ _ _ H)
             (fun _ _ _ => Throw (JsError "Error" "Malformed signature"))
             (JsError "Error" "Malformed signature")).
    reflexivity.
  - apply (proj2 (X11_library_errors_through_verify _ _ _ _ _ _ _ H)).
Defined.

(** The round trip at the callback URL of the test suite. *)
Lemma roundtrip_when_reparse_agrees_witness :
  verifyDigiIDCallback Whatwg.URL_new (mockResolvedValue true)
    {| address := defaultAddress;
       uri := "digiid://example.com/callback?x=abc&u=0";
       signature := defaultSignature |}
    {| expectedCallbackUrl := inl defaultCallback;
       expectedNonce := Some "abc" |}
  = Return {| isValid := true;
              result_address := defaultAddress;
              result_nonce := "abc" |}.
Proof.
  apply (roundtrip_when_reparse_agrees Whatwg.URL_new all_0x61
           (mockResolvedValue true) defaultCallback "abc" None 0
           "digiid://example.com/callback?x=abc&u=0"
           defaultAddress defaultSignature
           {| protocol := "https:"; host := "example.com";
              pathname := "/callback"; searchParams := [] |}
           {| protocol := "http:"; host := "example.com";
              pathname := "/callback";
              searchParams := [("x", "abc"); ("u", "0")] |});
    try discriminate; reflexivity.
Defined.

(* ------------------------------------------------------------------ *)
(** * More on [generateDigiIDUri] and [generateNonce] *)

(** X12. Whatever [generateDigiIDUri] throws is a [DigiIDError], also when
    the failure is the [TypeError] of the URL parser. *)
Theorem X12_generate_throws_DigiIDError
  (URL_new : string -> completion URL) (entropy : nat -> byte)
  (options : DigiIDUriOptions) (pos : nat) (e : thrown) :
  fst (generateDigiIDUri URL_new entropy options pos) = Throw e ->
  instanceof_DigiIDError e = true.
Proof.
  unfold generateDigiIDUri.
  destruct (truthy (callbackUrl options)); simpl;
    [|now intros [= <-]].
  destruct (URL_new (callbackUrl options)) as [p | e0]; simpl;
    [|now intros [= <-]].
  destruct (if truthy_opt (nonce options)
            then (match nonce options with
                  | Some n => n
                  | None => EmptyString
                  end, pos)
            else generateNonce entropy None pos) as [n pos'].
  destruct (truthy_flag (unsecure options)
            && negb (protocol p =? "http:")); simpl;
    [now intros [= <-]|].
  destruct (negb (truthy_flag (unsecure options))
            && negb (protocol p =? "https:")); simpl;
    [now intros [= <-] | discriminate].
Qed.

(** The fourth example of [examples/generate-uri.ts]: a callback URL without
    a scheme. *)
Lemma X12_generate_throws_DigiIDError_witness :
  instanceof_DigiIDError (DigiIDError "Invalid callback URL: Invalid URL")
  = true.
Proof.
  apply (X12_generate_throws_DigiIDError Whatwg.URL_new all_0x61
           {| callbackUrl := "myapi.com/auth";
              nonce := None; unsecure := None |} 0).
  reflexivity.
Defined.

(** X13. What a call costs in random bytes.  A call that fails on a missing
    or unparsable callback URL reads none.  Once the callback URL has parsed
    and no usable nonce is supplied, sixteen bytes are read, also when the
    call then throws for the scheme: the nonce is resolved before the scheme
    is checked. *)
Theorem X13_entropy_consumption
  (URL_new : string -> completion URL) (entropy : nat -> byte)
  (options : DigiIDUriOptions) (pos : nat) :
  (callbackUrl options = EmptyString ->
   snd (generateDigiIDUri URL_new entropy options pos) = pos)
  /\ (forall e,
        URL_new (callbackUrl options) = Throw e ->
        snd (generateDigiIDUri URL_new entropy options pos) = pos)
  /\ (forall parsedUrl,
        callbackUrl options <> EmptyString ->
        URL_new (callbackUrl options) = Return parsedUrl ->
        truthy_opt (nonce options) = false ->
        snd (generateDigiIDUri URL_new entropy options pos) = pos + 16).
Proof.
  split; [|split].
  - intro H. unfold generateDigiIDUri. now rewrite H.
  - intros e H. unfold generateDigiIDUri. rewrite H.
    now destruct (truthy (callbackUrl options)).
  - intros p Hcb Hp Hn.
    rewrite (generate_parsed _ _ _ _ _ Hcb Hp). simpl.
    unfold resolved_nonce. now rewrite Hn.
Qed.

(** An [http] callback URL without the flag: the call throws for the scheme
    and has read sixteen bytes. *)
Lemma X13_entropy_consumption_witness :
  generateDigiIDUri Whatwg.URL_new all_0x61
    {| callbackUrl := "http://example.com";
       nonce := None; unsecure := None |} 0
  = (Throw (DigiIDError msg_must_use_https), 16)
  /\ snd (generateDigiIDUri Whatwg.URL_new all_0x61
            {| callbackUrl := EmptyString;
               nonce := None; unsecure := None |} 0) = 0
  /\ snd (generateDigiIDUri Whatwg.URL_new all_0x61
            {| callbackUrl := "invalid-url";
               nonce := None; unsecure := None |} 0) = 0.
Proof.
  split; [|split].
  - apply injective_projections; [reflexivity|].
    apply (proj2 (proj2 (X13_entropy_consumption Whatwg.URL_new all_0x61
                           {| callbackUrl := "http://example.com";
                              nonce := None; unsecure := None |} 0))
             {| protocol := "http:"; host := "example.com";
                pathname := "/"; searchParams := [] |});
      [discriminate | reflexivity | reflexivity].
  - apply (proj1 (X13_entropy_consumption Whatwg.URL_new all_0x61
                    {| callbackUrl := EmptyString;
                       nonce := None; unsecure := None |} 0)).
    reflexivity.
  - apply (proj1 (proj2 (X13_entropy_consumption Whatwg.URL_new all_0x61
                           {| callbackUrl := "invalid-url";
                              nonce := None; unsecure := None |} 0))
             (JsError "TypeError" "Invalid URL")).
    reflexivity.
Defined.

(** X14. With a nonce that is supplied and is not the empty string, what
    [generateDigiIDUri] returns or throws depends on the options alone: the
    random source and the position in it make no difference, so two calls
    with the same options give the same URI. *)
Theorem X14_explicit_nonce_deterministic
  (URL_new : string -> completion URL) (entropy1 entropy2 : nat -> byte)
  (options : DigiIDUriOptions) (pos1 pos2 : nat) (n : string) :
  nonce options = Some n -> n <> EmptyString ->
  fst (generateDigiIDUri URL_new entropy1 options pos1)
  = fst (generateDigiIDUri URL_new entropy2 options pos2).
Proof.
  intros Hn Hne. apply truthy_iff in Hne.
  unfold generateDigiIDUri.
  destruct (truthy (callbackUrl options)); simpl; [|reflexivity].
  destruct (URL_new (callbackUrl options)) as [p | e]; simpl;
    [|reflexivity].
  rewrite Hn. simpl. rewrite Hne.
  destruct (truthy_flag (unsecure options)
            && negb (protocol p =? "http:")); [reflexivity|].
  destruct (negb (truthy_flag (unsecure options))
            && negb (protocol p =? "https:")); reflexivity.
Qed.

Lemma X14_explicit_nonce_deterministic_witness :
  fst (generateDigiIDUri Whatwg.URL_new all_0x61
         {| callbackUrl := defaultCallback;
            nonce := Some "my-custom-nonce-123"; unsecure := None |} 0)
  = fst (generateDigiIDUri Whatwg.URL_new (fun _ => x00)
           {| callbackUrl := defaultCallback;
              nonce := Some "my-custom-nonce-123"; unsecure := None |} 7).
Proof.
  apply (X14_explicit_nonce_deterministic Whatwg.URL_new all_0x61
           (fun _ => x00)
           {| callbackUrl := defaultCallback;
              nonce := Some "my-custom-nonce-123"; unsecure := None |}
           0 7 "my-custom-nonce-123");
    [reflexivity | discriminate].
Defined.

(** X15. [generateNonce] returns two lowercase hexadecimal digits for each
    byte it is asked for, sixteen bytes when no length is given, and leaves
    the random source just after the bytes it has read. *)
Theorem X15_generateNonce_shape
  (entropy : nat -> byte) (length : option nat) (pos : nat) :
  String.length (fst (generateNonce entropy length pos))
  = 2 * match length with Some n => n | None => 16 end
  /\ Hex.all_lower_hex (fst (generateNonce entropy length pos)) = true
  /\ snd (generateNonce entropy length pos)
     = pos + match length with Some n => n | None => 16 end
  /\ fst (generateNonce entropy length pos)
     = Hex.encode
         (map entropy
              (seq pos match length with Some n => n | None => 16 end)).
Proof.
  unfold generateNonce, randomBytes. simpl.
  destruct (hex_encode_shape
              (map entropy
                   (seq pos match length with Some n => n | None => 16 end)))
    as [Hl Hh].
  rewrite length_map, length_seq in Hl.
  repeat split; assumption.
Qed.

Lemma byte_of_hex_pair_of_byte (b : byte) :
  exists hi lo,
    Hex.of_byte b = String hi (String lo EmptyString)
    /\ byte_of_hex_pair hi lo = Some b.
Proof. destruct b; do 2 eexists; split; reflexivity. Qed.

(** The hexadecimal encoding tells any two buffers apart. *)
Lemma hex_encode_injective (buf1 : list byte) :
  forall buf2, Hex.encode buf1 = Hex.encode buf2 -> buf1 = buf2.
Proof.
  induction buf1 as [|a buf1 IH]; intros [|b buf2] H.
  - reflexivity.
  - destruct (byte_of_hex_pair_of_byte b) as (hi & lo & Hb & _).
    change (Hex.encode (b :: buf2))
      with (Hex.of_byte b ++ Hex.encode buf2) in H.
    rewrite Hb in H. discriminate.
  - destruct (byte_of_hex_pair_of_byte a) as (hi & lo & Ha & _).
    change (Hex.encode (a :: buf1))
      with (Hex.of_byte a ++ Hex.encode buf1) in H.
    rewrite Ha in H. discriminate.
  - destruct (byte_of_hex_pair_of_byte a) as (hi & lo & Ha & Ha').
    destruct (byte_of_hex_pair_of_byte b) as (hi' & lo' & Hb & Hb').
    change (Hex.encode (a :: buf1))
      with (Hex.of_byte a ++ Hex.encode buf1) in H.
    change (Hex.encode (b :: buf2))
      with (Hex.of_byte b ++ Hex.encode buf2) in H.
    rewrite Ha, Hb in H. simpl in H.
    injection H as -> -> H.
    rewrite Ha' in Hb'. injection Hb' as ->.
    f_equal. now apply IH.
Qed.

Lemma string_app_inv_head (a x y : string) : a ++ x = a ++ y -> x = y.
Proof.
  induction a as [|c a IH]; simpl; intro H; [exact H|].
  injection H as H. now apply IH.
Qed.

Lemma string_app_inv_same_length (x : string) :
  forall y t t',
    String.length x = String.length y -> x ++ t = y ++ t' -> x = y.
Proof.
  induction x as [|c x IH]; intros [|c' y] t t' Hl H;
    try discriminate; [reflexivity|].
  simpl in *. injection H as -> H. f_equal.
  apply (IH y t t'); [lia | exact H].
Qed.

(** X16. Two calls with the same options and no usable nonce that read
    different sixteen bytes return different URIs: the encoding of the nonce
    does not merge distinct random values. *)
Theorem X16_fresh_bytes_fresh_uri
  (URL_new : string -> completion URL) (entropy1 entropy2 : nat -> byte)
  (options : DigiIDUriOptions) (pos1 pos2 : nat) (uri1 uri2 : string) :
  truthy_opt (nonce options) = false ->
  fst (generateDigiIDUri URL_new entropy1 options pos1) = Return uri1 ->
  fst (generateDigiIDUri URL_new entropy2 options pos2) = Return uri2 ->
  map entropy1 (seq pos1 16) <> map entropy2 (seq pos2 16) ->
  uri1 <> uri2.
Proof.
  intros Hn H1 H2 Hdiff Heq. apply Hdiff. clear Hdiff.
  destruct (generate_returns _ _ _ _ _ H1) as [Hcb [p Hp]].
  rewrite (generate_parsed _ _ _ _ _ Hcb Hp) in H1.
  rewrite (generate_parsed _ _ _ _ _ Hcb Hp) in H2.
  unfold resolved_nonce in H1, H2. rewrite Hn in H1, H2.
  cbv beta iota delta [fst] in H1, H2.
  destruct (truthy_flag (unsecure options)
            && negb (protocol p =? "http:")); [discriminate|].
  destruct (negb (truthy_flag (unsecure options))
            && negb (protocol p =? "https:")); [discriminate|].
  apply Return_injective in H1, H2. subst uri1 uri2.
  do 3 apply string_app_inv_head in Heq.
  apply hex_encode_injective.
  apply string_app_inv_same_length in Heq; [exact Heq|].
  rewrite (proj1 (hex_encode_shape _)), (proj1 (hex_encode_shape _)).
  now rewrite !length_map, !length_seq.
Qed.

(** Two random sources that differ in the first byte. *)
Lemma X16_fresh_bytes_fresh_uri_witness :
  "digiid://example.com/callback?x=61616161616161616161616161616161&u=0"
  <> "digiid://example.com/callback?x=00000000000000000000000000000000&u=0".
Proof.
  apply (X16_fresh_bytes_fresh_uri Whatwg.URL_new all_0x61 (fun _ => x00)
           {| callbackUrl := defaultCallback;
              nonce := None; unsecure := None |} 0 0);
    [reflexivity | reflexivity | reflexivity | discriminate].
Defined.

(** X17. A URI that [generateDigiIDUri] returns starts with [digiid://], so
    the presence check of [verifyDigiIDCallback] accepts it as [uri], and
    what the verification hands to the URL parser is the same text with
    [http://] in front: host and path of the callback URL, then [x] and
    [u]. *)
Theorem X17_generated_uri_as_parsed_by_verify
  (URL_new : string -> completion URL) (entropy : nat -> byte)
  (options : DigiIDUriOptions) (pos : nat) (uri : string) :
  fst (generateDigiIDUri URL_new entropy options pos) = Return uri ->
  exists parsedUrl,
    URL_new (callbackUrl options) = Return parsedUrl
    /\ truthy uri = true
    /\ replace_digiid uri
       = "http://" ++ (host parsedUrl ++ pathname parsedUrl)
         ++ "?x=" ++ fst (resolved_nonce entropy options pos)
         ++ "&u=" ++ (if truthy_flag (unsecure options) then "1" else "0").
Proof.
  intro Hu.
  destruct (generate_returns _ _ _ _ _ Hu) as [Hcb [p Hp]].
  rewrite (generate_parsed _ _ _ _ _ Hcb Hp) in Hu. simpl in Hu.
  exists p. split; [exact Hp|].
  destruct (truthy_flag (unsecure options)
            && negb (protocol p =? "http:")); [discriminate|].
  destruct (negb (truthy_flag (unsecure options))
            && negb (protocol p =? "https:")); [discriminate|].
  injection Hu as <-. split; reflexivity.
Qed.

Lemma X17_generated_uri_as_parsed_by_verify_witness :
  exists parsedUrl,
    Whatwg.URL_new "http://localhost:3000/login" = Return parsedUrl
    /\ truthy "digiid://localhost:3000/login?x=abc&u=1" = true
    /\ replace_digiid "digiid://localhost:3000/login?x=abc&u=1"
       = "http://" ++ (host parsedUrl ++ pathname parsedUrl)
         ++ "?x=" ++ "abc" ++ "&u=" ++ "1".
Proof.
  apply (X17_generated_uri_as_parsed_by_verify Whatwg.URL_new all_0x61
           {| callbackUrl := "http://localhost:3000/login";
              nonce := Some "abc"; unsecure := Some true |} 0
           "digiid://localhost:3000/login?x=abc&u=1").
  reflexivity.
Defined.

(** X18. What a resolved call guarantees to its caller: the result is
    flagged valid and names the address of the payload; host and path of the
    received URI are those of the expected callback URL; and a flag [u=1]
    goes with an [http:] expectation, a flag [u=0] with an [https:] one. *)
Theorem X18_resolved_call_guarantees
  (URL_new : string -> completion URL)
  (verifySignature : string -> string -> string -> completion bool)
  (d : DigiIDCallbackData) (o : DigiIDVerifyOptions)
  (r : DigiIDVerificationResult) :
  verifyDigiIDCallback URL_new verifySignature d o = Return r ->
  isValid r = true
  /\ result_address r = address d
  /\ exists pr pe u,
       URL_new (replace_digiid (uri d)) = Return pr
       /\ match expectedCallbackUrl o with
          | inl s => URL_new s
          | inr v => Return v
          end = Return pe
       /\ searchParams_get "u" (searchParams pr) = Some u
       /\ searchParams_get "x" (searchParams pr) = Some (result_nonce r)
       /\ host pr ++ pathname pr = host pe ++ pathname pe
       /\ (u = "1" -> protocol pe = "http:")
       /\ (u = "0" -> protocol pe = "https:").
Proof.
  intro Hr.
  destruct (verify_resolves_inv _ _ _ _ _ Hr)
    as (pr & pe & x & u & Hreach & _ & ->).
  destruct Hreach as [[[Hend Hsame] Hsch] _].
  destruct Hend as (_ & _ & _ & Hpr & Hx & Hu & Hpe).
  split; [reflexivity|]. split; [reflexivity|].
  exists pr, pe, u. repeat split; try assumption.
  - intros ->. unfold checkScheme in Hsch. simpl in Hsch.
    destruct (String.eqb_spec (protocol pe) "http:");
      [assumption | discriminate].
  - intros ->. unfold checkScheme in Hsch. simpl in Hsch.
    destruct (String.eqb_spec (protocol pe) "https:");
      [assumption | discriminate].
Qed.

Lemma X18_resolved_call_guarantees_witness :
  isValid {| isValid := true; result_address := defaultAddress;
             result_nonce := defaultNonce |} = true
  /\ result_address {| isValid := true; result_address := defaultAddress;
                       result_nonce := defaultNonce |}
     = address defaultCallbackData
  /\ exists pr pe u,
       Whatwg.URL_new (replace_digiid (uri defaultCallbackData)) = Return pr
       /\ match expectedCallbackUrl defaultVerifyOptions with
          | inl s => Whatwg.URL_new s
          | inr v => Return v
          end = Return pe
       /\ searchParams_get "u" (searchParams pr) = Some u
       /\ searchParams_get "x" (searchParams pr)
          = Some (result_nonce
                    {| isValid := true; result_address := defaultAddress;
                       result_nonce := defaultNonce |})
       /\ host pr ++ pathname pr = host pe ++ pathname pe
       /\ (u = "1" -> protocol pe = "http:")
       /\ (u = "0" -> protocol pe = "https:").
Proof.
  apply (X18_resolved_call_guarantees Whatwg.URL_new
           (mockResolvedValue true) defaultCallbackData
           defaultVerifyOptions).
  reflexivity.
Defined.

(** X19. [generateDigiIDUri] returns exactly when the callback URL is not
    empty, parses, and has the scheme that goes with the flag ([http:] with
    [unsecure] true, [https:] otherwise); the URI is then [digiid://], host
    and path, the nonce as [x] and the flag as [u]. *)
Theorem X19_generate_returns_exactly_when
  (URL_new : string -> completion URL) (entropy : nat -> byte)
  (options : DigiIDUriOptions) (pos : nat) (uri : string) :
  fst (generateDigiIDUri URL_new entropy options pos) = Return uri
  <-> callbackUrl options <> EmptyString
      /\ exists parsedUrl,
           URL_new (callbackUrl options) = Return parsedUrl
           /\ protocol parsedUrl
              = (if truthy_flag (unsecure options)
                 then "http:" else "https:")
           /\ uri = "digiid://" ++ (host parsedUrl ++ pathname parsedUrl)
                    ++ "?x=" ++ fst (resolved_nonce entropy options pos)
                    ++ "&u="
                    ++ (if truthy_flag (unsecure options)
                        then "1" else "0").
Proof.
  split.
  - intro Hu.
    destruct (generate_returns _ _ _ _ _ Hu) as [Hcb [p Hp]].
    split; [exact Hcb|]. exists p. split; [exact Hp|].
    rewrite (generate_parsed _ _ _ _ _ Hcb Hp) in Hu.
    cbv beta iota delta [fst] in Hu.
    destruct (truthy_flag (unsecure options)).
    + destruct (String.eqb_spec (protocol p) "http:") as [E | _];
        simpl in Hu; [|discriminate].
      split; [exact E|]. now apply Return_injective in Hu.
    + destruct (String.eqb_spec (protocol p) "https:") as [E | _];
        simpl in Hu; [|discriminate].
      split; [exact E|]. now apply Return_injective in Hu.
  - intros [Hcb [p [Hp [Hs ->]]]].
    rewrite (generate_parsed _ _ _ _ _ Hcb Hp).
    cbv beta iota delta [fst]. rewrite Hs.
    now destruct (truthy_flag (unsecure options)).
Qed.

(** The second example of [examples/generate-uri.ts], with a nonce. *)
Lemma X19_generate_returns_exactly_when_witness :
  fst (generateDigiIDUri Whatwg.URL_new all_0x61
         {| callbackUrl := "http://localhost:8080/dev/callback";
            nonce := Some "abc"; unsecure := Some true |} 0)
  = Return "digiid://localhost:8080/dev/callback?x=abc&u=1".
Proof.
  apply (proj2 (X19_generate_returns_exactly_when Whatwg.URL_new all_0x61
                  {| callbackUrl := "http://localhost:8080/dev/callback";
                     nonce := Some "abc"; unsecure := Some true |} 0
                  "digiid://localhost:8080/dev/callback?x=abc&u=1")).
  split; [discriminate|].
  exists {| protocol := "http:"; host := "localhost:8080";
            pathname := "/dev/callback"; searchParams := [] |}.
  repeat split; reflexivity.
Defined.

(** X20. The two failures of [generateDigiIDUri] on the callback URL itself:
    an empty one is rejected as missing, whatever the parser would say of
    it; one that does not parse is rejected with [Invalid callback URL: ]
    followed by the message of the parser's error.  Neither the nonce nor
    the flag changes that. *)
Theorem X20_callback_url_failures
  (URL_new : string -> completion URL) (entropy : nat -> byte)
  (options : DigiIDUriOptions) (pos : nat) :
  (callbackUrl options = EmptyString ->
   fst (generateDigiIDUri URL_new entropy options pos)
   = Throw (DigiIDError "Callback URL is required."))
  /\ (forall e,
        callbackUrl options <> EmptyString ->
        URL_new (callbackUrl options) = Throw e ->
        fst (generateDigiIDUri URL_new entropy options pos)
        = Throw (DigiIDError ("Invalid callback URL: " ++ message e))).
Proof.
  split.
  - intro H. unfold generateDigiIDUri. now rewrite H.
  - intros e Hcb He. apply truthy_iff in Hcb.
    unfold generateDigiIDUri. now rewrite Hcb, He.
Qed.

(** The tests "should throw error if callbackUrl is missing" and "should
    throw error for invalid callback URL format". *)
Lemma X20_callback_url_failures_witness :
  fst (generateDigiIDUri Whatwg.URL_new all_0x61
         {| callbackUrl := EmptyString;
            nonce := Some "abc"; unsecure := Some true |} 0)
  = Throw (DigiIDError "Callback URL is required.")
  /\ fst (generateDigiIDUri Whatwg.URL_new all_0x61
            {| callbackUrl := "invalid-url";
               nonce := None; unsecure := None |} 0)
     = Throw (DigiIDError "Invalid callback URL: Invalid URL").
Proof.
  split.
  - apply (proj1 (X20_callback_url_failures Whatwg.URL_new all_0x61
                    {| callbackUrl := EmptyString;
                       nonce := Some "abc"; unsecure := Some true |} 0)).
    reflexivity.
  - apply (proj2 (X20_callback_url_failures Whatwg.URL_new all_0x61
                    {| callbackUrl := "invalid-url";
                       nonce := None; unsecure := None |} 0)
             (JsError "TypeError" "Invalid URL"));
      [discriminate | reflexivity].
Defined.


(* ------------------------------------------------------------------ *)
(** * From the model of the URL parser to the platform *)

Lemma follows_standard_at_URL_new
  (platform : string -> completion URL) (input : string) :
  Whatwg.follows_standard_at platform input ->
  platform input = Whatwg.URL_new input.
Proof.
  unfold Whatwg.follows_standard_at, Whatwg.URL_new.
  destruct (Whatwg.basic_URL_parser input); [auto | auto | contradiction].
Qed.

(** A generation evaluated with [Whatwg.URL_new] is the generation under
    any constructor that follows the Standard at the callback URL. *)
Lemma generate_under_platform
  (platform : string -> completion URL) (entropy : nat -> byte)
  (options : DigiIDUriOptions) (pos : nat) :
  Whatwg.follows_standard_at platform (callbackUrl options) ->
  generateDigiIDUri platform entropy options pos
  = generateDigiIDUri Whatwg.URL_new entropy options pos.
Proof.
  intro H. unfold generateDigiIDUri.
  now rewrite (follows_standard_at_URL_new _ _ H).
Qed.

(** A verification evaluated with [Whatwg.URL_new] is the verification
    under any constructor that follows the Standard at the received URI and
    at the expected callback URL. *)
Lemma verify_under_platform
  (platform : string -> completion URL)
  (verifySignature : string -> string -> string -> completion bool)
  (d : DigiIDCallbackData) (o : DigiIDVerifyOptions) :
  Whatwg.follows_standard_at platform (replace_digiid (uri d)) ->
  match expectedCallbackUrl o with
  | inl s => Whatwg.follows_standard_at platform s
  | inr _ => True
  end ->
  verifyDigiIDCallback platform verifySignature d o
  = verifyDigiIDCallback Whatwg.URL_new verifySignature d o.
Proof.
  intros Hr He. unfold verifyDigiIDCallback.
  rewrite (follows_standard_at_URL_new _ _ Hr).
  destruct (expectedCallbackUrl o) as [s | v]; [|reflexivity].
  now rewrite (follows_standard_at_URL_new _ _ He).
Qed.
